(** * vMix controller: state synchronisation and command dispatch

    A shallow embedding of the protocol logic of the two controller shells,
    [src/main.py] (desktop, PyQt) and [src/mobile/main.py] (mobile, Kivy):
    the HTTP/XML client [vMixAPI], the controller methods that poll the
    mixer and dispatch commands, and [Settings.save].

    Conventions of the embedding.
    - The network is a [World]: the log of the URLs requested so far and a
      deterministic [respond] function that maps the history and the URL of
      a request to what [requests.get] does for it (raise, or return a
      response).  Timeouts are real time and are not modelled.
    - [xml.etree.ElementTree.fromstring] is a section variable; [None]
      stands for the [ParseError] it raises.
    - A Python method that mutates [self] is a program in the state monad
      [Prog] over the pair of the controller object and the world.
    - Calls into the widget toolkit are recorded, in order, in the [ui]
      trace of the controller; their rendering is not interpreted.
      [logging] calls are dropped. *)

From stdpp Require Import base strings gmap list pretty.
From Stdlib Require Import ZArith Floats.

Local Open Scope string_scope.
Local Open Scope list_scope.
Set Warnings "-register-all,-inexact-float".

(** ** Python values and idioms *)

Module Py.

(** Truth value of a [str]: only the empty string is falsy. *)
Definition truthy_str (s : string) : bool :=
  match s with
  | EmptyString => false
  | String _ _ => true
  end.

(** Truth value of a value that is a [str] or [None]. *)
Definition truthy (o : option string) : bool :=
  match o with
  | Some s => truthy_str s
  | None => false
  end.

(** [f"{v}"] for a value that is a [str] or [None]. *)
Definition fmt (o : option string) : string :=
  match o with
  | Some s => s
  | None => "None"
  end.

(** [sep.join(l)]. *)
Fixpoint join (sep : string) (l : list string) : string :=
  match l with
  | [] => ""
  | [s] => s
  | s :: rest => s +:+ sep +:+ join sep rest
  end.

(** A [dict] with insertion order: [d[k] = v] overwrites in place when
    the key is present and appends otherwise. *)
Fixpoint dict_set {K V : Type} `{EqDecision K}
    (k : K) (v : V) (d : list (K * V)) : list (K * V) :=
  match d with
  | [] => [(k, v)]
  | (k', v') :: rest =>
      if decide (k = k') then (k, v) :: rest
      else (k', v') :: dict_set k v rest
  end.

Fixpoint dict_get {K V : Type} `{EqDecision K}
    (k : K) (d : list (K * V)) : option V :=
  match d with
  | [] => None
  | (k', v') :: rest => if decide (k = k') then Some v' else dict_get k rest
  end.

End Py.

(** ** The state monad of the embedding *)

Definition Prog (S A : Type) : Type := S -> A * S.

Definition ret {S A : Type} (a : A) : Prog S A := fun s => (a, s).

Definition bind {S A B : Type} (m : Prog S A) (k : A -> Prog S B) : Prog S B :=
  fun s => let '(a, s') := m s in k a s'.

Definition gets {S A : Type} (f : S -> A) : Prog S A := fun s => (f s, s).

Definition modify {S : Type} (f : S -> S) : Prog S unit := fun s => (tt, f s).

Declare Scope prog_scope.
Delimit Scope prog_scope with prog.
Notation "'let*' x ':=' m 'in' k" := (bind m (fun x => k))
  (at level 10, x name, m at level 100, k at level 200) : prog_scope.
Notation "m ';;' k" := (bind m (fun _ => k))
  (at level 100, k at level 200, right associativity) : prog_scope.

(** [for x in l: body(x)] *)
Fixpoint for_each {S A : Type} (l : list A) (body : A -> Prog S unit)
    : Prog S unit :=
  match l with
  | [] => ret tt
  | x :: rest => bind (body x) (fun _ => for_each rest body)
  end.

(** ** XML documents, as [ElementTree] presents them *)

Module Xml.

Inductive Element : Type :=
  Elem { tag : string;
         attrib : gmap string string;
         text : option string;
         children : list Element }.

(** [elem.get(key)] *)
Definition get (e : Element) (key : string) : option string :=
  attrib e !! key.

(** [elem.get(key, default)] *)
Definition get_default (e : Element) (key dflt : string) : string :=
  default dflt (attrib e !! key).

Definition has_tag (t : string) (e : Element) : bool :=
  bool_decide (tag e = t).

(** [elem.find(t)]: the first direct child with tag [t]. *)
Definition find (t : string) (e : Element) : option Element :=
  List.find (has_tag t) (children e).

Definition children_with (t : string) (e : Element) : list Element :=
  List.filter (has_tag t) (children e).

(** [elem.findall("t1/t2/...")]: follow the path through direct
    children; the matches come in document order. *)
Definition findall (path : list string) (e : Element) : list Element :=
  fold_left (fun es t => flat_map (children_with t) es) path [e].

End Xml.

(** ** The network *)

Module Http.

(** What [requests.get] can raise, as far as the code tells them apart. *)
Inductive RequestException : Type :=
| ConnectionError
| Timeout
| OtherException.

Inductive Result : Type :=
| Raises (e : RequestException)
| Response (status_code : Z) (text : string).

Record World : Type := MkWorld {
  sent : list string;
  respond : list string -> string -> Result
}.

(** [requests.get(url, timeout=...)] *)
Definition requests_get (url : string) : Prog World Result :=
  fun w => (respond w (sent w) url,
            {| sent := sent w ++ [url]; respond := respond w |}).

(** The outcome of the next request for [url], and the world after it. *)
Definition answer (w : World) (url : string) : Result :=
  respond w (sent w) url.

Definition logged (url : string) (w : World) : World :=
  {| sent := sent w ++ [url]; respond := respond w |}.

End Http.

(** ** Controller programs

    A controller method runs on the controller object [C] and the world:
    [self f] reads a field, [assign f] updates the object and [call m]
    runs a method of the API client against the network. *)

Definition self {C A : Type} (field : C -> A) : Prog (C * Http.World) A :=
  gets (fun s => field (fst s)).

Definition assign {C : Type} (f : C -> C) : Prog (C * Http.World) unit :=
  modify (fun s => (f (fst s), snd s)).

Definition call {C A : Type} (m : Prog Http.World A)
    : Prog (C * Http.World) A :=
  fun s => let '(a, w) := m (snd s) in (a, (fst s, w)).

(** ** The API client, [class vMixAPI]

    [send_command], [get_xml_data], [get_active_input] and
    [get_preview_input] are the same in both files up to logging; the
    constructors differ in the timeout, and [get_inputs] in the fields it
    keeps, so those live in [Desktop] and [Mobile]. *)

Module Api.
Import Http.

Record vMixAPI : Type := MkApi { base_url : string; timeout : nat }.

Local Open Scope prog_scope.

(** [send_command(self, command, **params)]: [True] iff the request
    returns with status 200; every exception is caught and gives
    [False]. *)
Definition command_url (api : vMixAPI) (command : string)
    (params : list (string * string)) : string :=
  let params_str :=
    Py.join "&" (map (fun kv => fst kv +:+ "=" +:+ snd kv) params) in
  let url := base_url api +:+ "/?Function=" +:+ command in
  if Py.truthy_str params_str then url +:+ "&" +:+ params_str else url.

Definition send_command (api : vMixAPI) (command : string)
    (params : list (string * string)) : Prog World bool :=
  let* r := requests_get (command_url api command params) in
  match r with
  | Response code _ => ret (bool_decide (code = 200%Z))
  | Raises _ => ret false
  end.

(** [get_xml_data(self)]: the body of a 200 response, else [None]. *)
Definition state_url (api : vMixAPI) : string := base_url api +:+ "/".

Definition get_xml_data (api : vMixAPI) : Prog World (option string) :=
  let* r := requests_get (state_url api) in
  match r with
  | Response code body =>
      if bool_decide (code = 200%Z) then ret (Some body) else ret None
  | Raises ConnectionError => ret None
  | Raises Timeout => ret None
  | Raises OtherException => ret None
  end.

(** What [send_command] and [get_xml_data] return, as functions of the
    outcome of their request. *)
Definition succeeded (r : Result) : bool :=
  match r with
  | Response code _ => bool_decide (code = 200%Z)
  | Raises _ => false
  end.

Definition xml_data_of (r : Result) : option string :=
  match r with
  | Response code body => if bool_decide (code = 200%Z) then Some body else None
  | Raises _ => None
  end.

Section Decode.
(** [ET.fromstring]; [None] is a raised [ParseError]. *)
Variable fromstring : string -> option Xml.Element.

(** The body of [get_active_input] / [get_preview_input] after the
    fetch: [root.find(name)] and its [.text]. *)
Definition top_level_text (name : string) (xml_data : option string)
    : option string :=
  match xml_data with
  | Some body =>
      if Py.truthy_str body then
        match fromstring body with
        | Some root =>
            match Xml.find name root with
            | Some elem => Xml.text elem
            | None => None
            end
        | None => None
        end
      else None
  | None => None
  end.

Definition get_active_input (api : vMixAPI) : Prog World (option string) :=
  let* xml_data := get_xml_data api in
  ret (top_level_text "active" xml_data).

Definition get_preview_input (api : vMixAPI) : Prog World (option string) :=
  let* xml_data := get_xml_data api in
  ret (top_level_text "preview" xml_data).

End Decode.

End Api.

(** ** The desktop controller, [src/main.py] *)

Module Desktop.
Import Http Api.

Local Open Scope prog_scope.

(** [vMixAPI(ip, port)], that is [vMixAPI.__init__] *)
Definition new_vMixAPI (ip port : string) : Api.vMixAPI :=
  {| base_url := "http://" +:+ ip +:+ ":" +:+ port +:+ "/api";
     timeout := 5 |}.

(** The dictionary built for each [input] element by [get_inputs]. *)
Record InputData : Type := MkInput {
  number : option string;
  title : string;
  type : string;
  state : string;
  duration : string;
  position : string;
  short_title : string;
  key : string
}.

Definition input_data (input_elem : Xml.Element) : InputData :=
  {| number := Xml.get input_elem "number";
     title := Xml.get_default input_elem "title"
                ("Input " +:+ Py.fmt (Xml.get input_elem "number"));
     type := Xml.get_default input_elem "type" "Unknown";
     state := Xml.get_default input_elem "state" "";
     duration := Xml.get_default input_elem "duration" "0";
     position := Xml.get_default input_elem "position" "0";
     short_title := Xml.get_default input_elem "shortTitle" "";
     key := Xml.get_default input_elem "key" "" |}.

(** The same dictionary by its keys, in insertion order; a value is a
    [str], or [None] for a [number] that the element lacks. *)
Definition as_dict (d : InputData) : list (string * option string) :=
  [ ("number", number d);
    ("title", Some (title d));
    ("type", Some (type d));
    ("state", Some (state d));
    ("duration", Some (duration d));
    ("position", Some (position d));
    ("short_title", Some (short_title d));
    ("key", Some (key d)) ].

(** Calls into the PyQt widgets, in the order the methods make them.  A
    call that reads [active_input] / [preview_input] carries the values it
    reads. *)
Inductive UiCall : Type :=
| ShowMessage (msg : string)            (* status_bar.showMessage *)
| ConnectEnabled (b : bool)             (* btn_connect.setEnabled *)
| ConnectText (s : string)              (* btn_connect.setText, setStyleSheet *)
| ControlsEnabled                       (* the eight setEnabled(True) *)
| QuickPlayEnabled                      (* btn_quick_play.setEnabled(True) *)
| ClearTiles                            (* removeWidget / deleteLater loop *)
| AddTile (d : InputData) (is_active is_preview : bool)
| UpdateTileStyles (active preview : option string)
| UpdateInputInfo (active preview : option string)
| UpdateAllStyles
| FlashButton                           (* flash_button(btn_quick_play, ...) *)
| FtbStyle (active : bool)              (* btn_ftb.setStyleSheet *)
| TilesContainerUpdate.

(** The fields of [VMixController] that the protocol logic uses. *)
Record Controller : Type := MkController {
  vmix_api : option Api.vMixAPI;
  input_tiles : list (option string * InputData);
  active_input : option string;
  preview_input : option string;
  ftb_timer : bool;                     (* is the blink timer running *)
  ftb_active : bool;
  active_overlays : gmap nat bool;
  ui : list UiCall
}.

(** [VMixController.__init__], protocol state only. *)
Definition init : Controller :=
  {| vmix_api := None;
     input_tiles := [];
     active_input := None;
     preview_input := None;
     ftb_timer := false;
     ftb_active := false;
     active_overlays := <[1:=false]> (<[2:=false]> (<[3:=false]> (<[4:=false]> ∅)));
     ui := [] |}.

Definition set_vmix_api (v : option Api.vMixAPI) (c : Controller) :=
  {| vmix_api := v; input_tiles := input_tiles c;
     active_input := active_input c; preview_input := preview_input c;
     ftb_timer := ftb_timer c; ftb_active := ftb_active c;
     active_overlays := active_overlays c; ui := ui c |}.
Definition set_input_tiles (v : list (option string * InputData)) (c : Controller) :=
  {| vmix_api := vmix_api c; input_tiles := v;
     active_input := active_input c; preview_input := preview_input c;
     ftb_timer := ftb_timer c; ftb_active := ftb_active c;
     active_overlays := active_overlays c; ui := ui c |}.
Definition set_active_input (v : option string) (c : Controller) :=
  {| vmix_api := vmix_api c; input_tiles := input_tiles c;
     active_input := v; preview_input := preview_input c;
     ftb_timer := ftb_timer c; ftb_active := ftb_active c;
     active_overlays := active_overlays c; ui := ui c |}.
Definition set_preview_input (v : option string) (c : Controller) :=
  {| vmix_api := vmix_api c; input_tiles := input_tiles c;
     active_input := active_input c; preview_input := v;
     ftb_timer := ftb_timer c; ftb_active := ftb_active c;
     active_overlays := active_overlays c; ui := ui c |}.
Definition set_ftb_timer (v : bool) (c : Controller) :=
  {| vmix_api := vmix_api c; input_tiles := input_tiles c;
     active_input := active_input c; preview_input := preview_input c;
     ftb_timer := v; ftb_active := ftb_active c;
     active_overlays := active_overlays c; ui := ui c |}.
Definition set_ftb_active (v : bool) (c : Controller) :=
  {| vmix_api := vmix_api c; input_tiles := input_tiles c;
     active_input := active_input c; preview_input := preview_input c;
     ftb_timer := ftb_timer c; ftb_active := v;
     active_overlays := active_overlays c; ui := ui c |}.
Definition set_active_overlays (v : gmap nat bool) (c : Controller) :=
  {| vmix_api := vmix_api c; input_tiles := input_tiles c;
     active_input := active_input c; preview_input := preview_input c;
     ftb_timer := ftb_timer c; ftb_active := ftb_active c;
     active_overlays := v; ui := ui c |}.
Definition set_ui (v : list UiCall) (c : Controller) :=
  {| vmix_api := vmix_api c; input_tiles := input_tiles c;
     active_input := active_input c; preview_input := preview_input c;
     ftb_timer := ftb_timer c; ftb_active := ftb_active c;
     active_overlays := active_overlays c; ui := v |}.

(** The controller object together with the network it talks to. *)
Abbreviation Sys := (Controller * World)%type.

Definition ui_call (e : UiCall) : Prog Sys unit :=
  assign (fun c => set_ui (ui c ++ [e]) c).

Definition show_message (msg : string) : Prog Sys unit :=
  ui_call (ShowMessage msg).

(** [update_tile_styles] and [update_input_info] repaint the tiles and the
    two labels from [active_input] and [preview_input]. *)
Definition update_tile_styles : Prog Sys unit :=
  let* a := self active_input in
  let* p := self preview_input in
  ui_call (UpdateTileStyles a p).

Definition update_input_info : Prog Sys unit :=
  let* a := self active_input in
  let* p := self preview_input in
  ui_call (UpdateInputInfo a p).

Definition update_all_styles : Prog Sys unit := ui_call UpdateAllStyles.

(** The [input_tiles] dictionary after the tile-building loop of
    [load_inputs] has run over [inputs], and the [InputTile]s it creates. *)
Definition tiles_of (inputs : list InputData)
    (tiles : list (option string * InputData))
    : list (option string * InputData) :=
  fold_left (fun d i => Py.dict_set (number i) i d) inputs tiles.

Definition add_tiles (a p : option string) (inputs : list InputData)
    : list UiCall :=
  map (fun d => AddTile d (bool_decide (a = number d))
                          (bool_decide (p = number d))) inputs.

Section Methods.
(** [ET.fromstring]; [None] is a raised [ParseError]. *)
Variable fromstring : string -> option Xml.Element.

(** [vMixAPI.get_inputs] *)
Definition decode_inputs (xml_data : option string) : list InputData :=
  match xml_data with
  | Some body =>
      if Py.truthy_str body then
        match fromstring body with
        | Some root => map input_data (Xml.findall ["inputs"; "input"] root)
        | None => []
        end
      else []
  | None => []
  end.

Definition get_inputs (api : Api.vMixAPI) : Prog World (list InputData) :=
  let* xml_data := get_xml_data api in
  ret (decode_inputs xml_data).

(** [VMixController.load_inputs] *)
Definition load_inputs : Prog Sys unit :=
  let* api := self vmix_api in
  match api with
  | None => show_message "❌ Not connected to vMix"
  | Some api =>
      ui_call ClearTiles ;;
      assign (set_input_tiles []) ;;
      let* inputs := call (get_inputs api) in
      match inputs with
      | [] => show_message "❌ Failed to get inputs list"
      | _ :: _ =>
          let* a := call (get_active_input fromstring api) in
          assign (set_active_input a) ;;
          let* p := call (get_preview_input fromstring api) in
          assign (set_preview_input p) ;;
          for_each inputs (fun d =>
            let* a := self active_input in
            let* p := self preview_input in
            ui_call (AddTile d (bool_decide (a = number d))
                               (bool_decide (p = number d))) ;;
            assign (fun c =>
              set_input_tiles (Py.dict_set (number d) d (input_tiles c)) c)) ;;
          update_input_info ;;
          show_message ("✅ Loaded inputs: " +:+ pretty (length inputs)) ;;
          ui_call TilesContainerUpdate
      end
  end.

(** [VMixController.connect_to_vmix]; [ip] and [port] are the texts of the
    two edit fields. *)
Definition connect_to_vmix (ip port : string) : Prog Sys unit :=
  if negb (Py.truthy_str ip) then
    show_message "❌ Enter vMix IP address!"
  else
    show_message ("Connecting to " +:+ ip +:+ ":" +:+ port +:+ "...") ;;
    ui_call (ConnectEnabled false) ;;
    assign (set_vmix_api (Some (new_vMixAPI ip port))) ;;
    let* xml_data := call (get_xml_data (new_vMixAPI ip port)) in
    (if Py.truthy xml_data then
       show_message ("✅ Connected to vMix " +:+ ip +:+ ":" +:+ port) ;;
       ui_call (ConnectText "Connected") ;;
       ui_call ControlsEnabled ;;
       load_inputs
     else
       show_message "❌ Failed to connect to vMix" ;;
       ui_call (ConnectText "Connect") ;;
       assign (set_vmix_api None)) ;;
    ui_call (ConnectEnabled true).

(** [VMixController.on_tile_clicked] *)
Definition on_tile_clicked (input_number : string) : Prog Sys unit :=
  let* api := self vmix_api in
  match api with
  | None => show_message "❌ Not connected to vMix"
  | Some api =>
      let* success :=
        call (send_command api "PreviewInput" [("Input", input_number)]) in
      if success then
        assign (set_preview_input (Some input_number)) ;;
        update_tile_styles ;;
        update_input_info ;;
        ui_call QuickPlayEnabled ;;
        show_message ("📺 Set to preview: V" +:+ input_number)
      else
        show_message "❌ Preview set error"
  end.

(** [VMixController.quick_play] *)
Definition quick_play : Prog Sys unit :=
  let* api := self vmix_api in
  let* preview := self preview_input in
  match api with
  | Some api =>
      if Py.truthy preview then
        let* success :=
          call (send_command api "Fade" [("Input", Py.fmt preview)]) in
        if success then
          assign (set_active_input preview) ;;
          update_tile_styles ;;
          update_input_info ;;
          ui_call FlashButton ;;
          show_message ("🔄 Smooth transition to V" +:+ Py.fmt preview)
        else
          let* success_cut :=
            call (send_command api "Cut" [("Input", Py.fmt preview)]) in
          if success_cut then
            assign (set_active_input preview) ;;
            update_tile_styles ;;
            update_input_info ;;
            ui_call FlashButton ;;
            show_message ("✅ Cut transition to V" +:+ Py.fmt preview)
          else
            show_message "❌ Transition error"
      else show_message "❌ Select input in preview first!"
  | None => show_message "❌ Select input in preview first!"
  end.

(** [VMixController.fade_to_black] *)
Definition fade_to_black : Prog Sys unit :=
  let* api := self vmix_api in
  match api with
  | None => show_message "❌ Not connected to vMix"
  | Some api =>
      let* old := self ftb_active in
      assign (set_ftb_active (negb old)) ;;
      let* now := self ftb_active in
      if now then
        ui_call (FtbStyle true) ;;
        let* success := call (send_command api "FadeToBlack" []) in
        if success then
          assign (set_ftb_timer true) ;;
          show_message "🌙 Fade To Black enabled"
        else
          assign (set_ftb_active false) ;;
          ui_call (FtbStyle false) ;;
          show_message "❌ Fade To Black error"
      else
        let* success := call (send_command api "FadeToBlack" []) in
        if success then
          assign (set_ftb_timer false) ;;
          ui_call (FtbStyle false) ;;
          show_message "🌙 Fade To Black disabled"
        else ret tt
  end.

(** [VMixController.overlay_selected]; a [layer] that is not a key of
    [active_overlays] raises [KeyError], which the method catches. *)
Definition overlay_selected (layer : nat) : Prog Sys unit :=
  let* api := self vmix_api in
  let* preview := self preview_input in
  match api with
  | Some api =>
      if Py.truthy preview then
        let* success :=
          call (send_command api ("OverlayInput" +:+ pretty layer)
                  [("Input", Py.fmt preview)]) in
        if success then
          let* overlays := self active_overlays in
          match overlays !! layer with
          | Some flag =>
              assign (set_active_overlays (<[layer := negb flag]> overlays)) ;;
              update_all_styles ;;
              show_message ("➕ Overlay on layer " +:+ pretty layer +:+ ": V"
                            +:+ Py.fmt preview)
          | None => show_message "❌ Overlay error"
          end
        else
          show_message ("❌ Overlay on layer " +:+ pretty layer +:+ " error")
      else show_message "❌ Select input in preview first!"
  | None => show_message "❌ Select input in preview first!"
  end.

(** [VMixController.remove_overlay] *)
Definition remove_overlay : Prog Sys unit :=
  let* api := self vmix_api in
  match api with
  | None => show_message "❌ Not connected to vMix"
  | Some api =>
      for_each (seq 1 4) (fun layer =>
        call (send_command api ("OverlayInput" +:+ pretty layer +:+ "Out") []) ;;
        assign (fun c =>
          set_active_overlays (<[layer := false]> (active_overlays c)) c)) ;;
      update_all_styles ;;
      show_message "✖ All overlays removed"
  end.

(** [VMixController.update_states], the poll tick. *)
Definition update_states : Prog Sys unit :=
  let* api := self vmix_api in
  match api with
  | None => ret tt
  | Some api =>
      let* new_active := call (get_active_input fromstring api) in
      let* new_preview := call (get_preview_input fromstring api) in
      let* a := self active_input in
      let* p := self preview_input in
      if bool_decide (new_active ≠ a) || bool_decide (new_preview ≠ p) then
        assign (set_active_input new_active) ;;
        assign (set_preview_input new_preview) ;;
        update_tile_styles ;;
        update_input_info
      else ret tt
  end.

End Methods.

End Desktop.

(** ** The mobile controller, [src/mobile/main.py] *)

Module Mobile.
Import Http Api.

Local Open Scope prog_scope.

(** [vMixAPI(ip, port)], that is [vMixAPI.__init__] *)
Definition new_vMixAPI (ip port : string) : Api.vMixAPI :=
  {| base_url := "http://" +:+ ip +:+ ":" +:+ port +:+ "/api";
     timeout := 2 |}.

(** The dictionary built for each [input] element by [get_inputs]. *)
Record InputData : Type := MkInput {
  number : option string;
  title : string;
  short_title : string
}.

Definition input_data (input_elem : Xml.Element) : InputData :=
  {| number := Xml.get input_elem "number";
     title := Xml.get_default input_elem "title"
                ("Input " +:+ Py.fmt (Xml.get input_elem "number"));
     short_title := Xml.get_default input_elem "shortTitle" "" |}.

(** The same dictionary by its keys, in insertion order; a value is a
    [str], or [None] for a [number] that the element lacks. *)
Definition as_dict (d : InputData) : list (string * option string) :=
  [ ("number", number d);
    ("title", Some (title d));
    ("short_title", Some (short_title d)) ].

Inductive Colour : Type := Red | Blue | Grey.

(** Calls into the Kivy widgets. *)
Inductive UiCall : Type :=
| ConnectDisabled                       (* connect_btn.disabled = True *)
| QuickPlayEnabled                      (* quick_play_btn.disabled = False *)
| FtbEnabled                            (* ftb_btn.disabled = False *)
| ClearWidgets                          (* tiles_layout.clear_widgets() *)
| AddWidget (d : InputData) (bg_color : Colour)
| PreviewLabel (text : string)
| ActiveLabel (text : string).

(** The fields of [VMixControllerMobile] that the protocol logic uses. *)
Record Controller : Type := MkController {
  status_text : string;
  connected : bool;
  vmix_api : option Api.vMixAPI;
  inputs : list InputData;
  active_input : option string;
  preview_input : option string;
  ftb_active : bool;
  ui : list UiCall
}.

(** [VMixControllerMobile.__init__], protocol state only. *)
Definition init : Controller :=
  {| status_text := "Ready to connect";
     connected := false;
     vmix_api := None;
     inputs := [];
     active_input := None;
     preview_input := None;
     ftb_active := false;
     ui := [] |}.

Definition set_status_text (v : string) (c : Controller) :=
  {| status_text := v; connected := connected c; vmix_api := vmix_api c;
     inputs := inputs c; active_input := active_input c;
     preview_input := preview_input c; ftb_active := ftb_active c;
     ui := ui c |}.
Definition set_connected (v : bool) (c : Controller) :=
  {| status_text := status_text c; connected := v; vmix_api := vmix_api c;
     inputs := inputs c; active_input := active_input c;
     preview_input := preview_input c; ftb_active := ftb_active c;
     ui := ui c |}.
Definition set_vmix_api (v : option Api.vMixAPI) (c : Controller) :=
  {| status_text := status_text c; connected := connected c; vmix_api := v;
     inputs := inputs c; active_input := active_input c;
     preview_input := preview_input c; ftb_active := ftb_active c;
     ui := ui c |}.
Definition set_inputs (v : list InputData) (c : Controller) :=
  {| status_text := status_text c; connected := connected c;
     vmix_api := vmix_api c;
     inputs := v; active_input := active_input c;
     preview_input := preview_input c; ftb_active := ftb_active c;
     ui := ui c |}.
Definition set_active_input (v : option string) (c : Controller) :=
  {| status_text := status_text c; connected := connected c;
     vmix_api := vmix_api c;
     inputs := inputs c; active_input := v;
     preview_input := preview_input c; ftb_active := ftb_active c;
     ui := ui c |}.
Definition set_preview_input (v : option string) (c : Controller) :=
  {| status_text := status_text c; connected := connected c;
     vmix_api := vmix_api c;
     inputs := inputs c; active_input := active_input c;
     preview_input := v; ftb_active := ftb_active c;
     ui := ui c |}.
Definition set_ftb_active (v : bool) (c : Controller) :=
  {| status_text := status_text c; connected := connected c;
     vmix_api := vmix_api c;
     inputs := inputs c; active_input := active_input c;
     preview_input := preview_input c; ftb_active := v;
     ui := ui c |}.
Definition set_ui (v : list UiCall) (c : Controller) :=
  {| status_text := status_text c; connected := connected c;
     vmix_api := vmix_api c;
     inputs := inputs c; active_input := active_input c;
     preview_input := preview_input c; ftb_active := ftb_active c;
     ui := v |}.

Abbreviation Sys := (Controller * World)%type.

Definition ui_call (e : UiCall) : Prog Sys unit :=
  assign (fun c => set_ui (ui c ++ [e]) c).

(** [VMixControllerMobile.update_info_labels] *)
Definition update_info_labels : Prog Sys unit :=
  let* p := self preview_input in
  (if Py.truthy p then ui_call (PreviewLabel ("V" +:+ Py.fmt p))
   else ui_call (PreviewLabel "Not selected")) ;;
  let* a := self active_input in
  if Py.truthy a then ui_call (ActiveLabel ("V" +:+ Py.fmt a))
  else ui_call (ActiveLabel "No data").

(** The buttons that the loop of [load_inputs] adds for [inputs]. *)
Definition add_widgets (a p : option string) (inputs : list InputData)
    : list UiCall :=
  map (fun d => AddWidget d (if bool_decide (a = number d) then Red
                             else if bool_decide (p = number d) then Blue
                             else Grey)) inputs.

(** The two labels that [update_info_labels] sets. *)
Definition info_labels (a p : option string) : list UiCall :=
  [ PreviewLabel (if Py.truthy p then "V" +:+ Py.fmt p else "Not selected");
    ActiveLabel (if Py.truthy a then "V" +:+ Py.fmt a else "No data") ].

Section Methods.
(** [ET.fromstring]; [None] is a raised [ParseError]. *)
Variable fromstring : string -> option Xml.Element.

(** [vMixAPI.get_inputs] *)
Definition decode_inputs (xml_data : option string) : list InputData :=
  match xml_data with
  | Some body =>
      if Py.truthy_str body then
        match fromstring body with
        | Some root => map input_data (Xml.findall ["inputs"; "input"] root)
        | None => []
        end
      else []
  | None => []
  end.

Definition get_inputs (api : Api.vMixAPI) : Prog World (list InputData) :=
  let* xml_data := get_xml_data api in
  ret (decode_inputs xml_data).

(** [VMixControllerMobile.load_inputs] *)
Definition load_inputs : Prog Sys unit :=
  let* api := self vmix_api in
  match api with
  | None => ret tt
  | Some api =>
      let* l := call (get_inputs api) in
      assign (set_inputs l) ;;
      let* a := call (get_active_input fromstring api) in
      assign (set_active_input a) ;;
      let* p := call (get_preview_input fromstring api) in
      assign (set_preview_input p) ;;
      ui_call ClearWidgets ;;
      let* l := self inputs in
      for_each l (fun d =>
        let* a := self active_input in
        let* p := self preview_input in
        ui_call (AddWidget d
                   (if bool_decide (a = number d) then Red
                    else if bool_decide (p = number d) then Blue
                    else Grey))) ;;
      update_info_labels
  end.

(** [VMixControllerMobile.connect_to_vmix] *)
Definition connect_to_vmix (ip port : string) : Prog Sys unit :=
  if negb (Py.truthy_str ip) then
    assign (set_status_text "Enter IP address")
  else
    assign (set_vmix_api (Some (new_vMixAPI ip port))) ;;
    let* xml_data := call (get_xml_data (new_vMixAPI ip port)) in
    if Py.truthy xml_data then
      assign (set_status_text ("Connected to " +:+ ip +:+ ":" +:+ port)) ;;
      assign (set_connected true) ;;
      ui_call ConnectDisabled ;;
      load_inputs ;;
      ui_call QuickPlayEnabled ;;
      ui_call FtbEnabled
    else
      assign (set_status_text "Failed to connect") ;;
      assign (set_connected false).

(** [VMixControllerMobile.on_input_clicked]; [input_number] is the
    attribute of the pressed button. *)
Definition on_input_clicked (input_number : option string) : Prog Sys unit :=
  let* api := self vmix_api in
  match api with
  | None => ret tt
  | Some api =>
      call (send_command api "PreviewInput"
              [("Input", Py.fmt input_number)]) ;;
      assign (set_preview_input input_number) ;;
      load_inputs ;;
      assign (set_status_text ("Preview: V" +:+ Py.fmt input_number))
  end.

(** [VMixControllerMobile.quick_play] *)
Definition quick_play : Prog Sys unit :=
  let* api := self vmix_api in
  let* preview := self preview_input in
  match api with
  | Some api =>
      if Py.truthy preview then
        call (send_command api "Fade" [("Input", Py.fmt preview)]) ;;
        assign (set_active_input preview) ;;
        load_inputs ;;
        let* preview := self preview_input in
        assign (set_status_text ("Transition to V" +:+ Py.fmt preview))
      else assign (set_status_text "Select preview first")
  | None => assign (set_status_text "Select preview first")
  end.

(** [VMixControllerMobile.fade_to_black] *)
Definition fade_to_black : Prog Sys unit :=
  let* api := self vmix_api in
  match api with
  | None => ret tt
  | Some api =>
      let* old := self ftb_active in
      assign (set_ftb_active (negb old)) ;;
      call (send_command api "FadeToBlack" []) ;;
      let* now := self ftb_active in
      assign (set_status_text ("FTB: " +:+ (if now then "ON" else "OFF")))
  end.

(** [VMixControllerMobile.overlay_selected]; [layer] is the attribute of
    the pressed button. *)
Definition overlay_selected (layer : nat) : Prog Sys unit :=
  let* api := self vmix_api in
  let* preview := self preview_input in
  match api with
  | Some api =>
      if Py.truthy preview then
        call (send_command api ("OverlayInput" +:+ pretty layer)
                [("Input", Py.fmt preview)]) ;;
        assign (set_status_text ("Overlay on layer " +:+ pretty layer))
      else assign (set_status_text "Select preview first")
  | None => assign (set_status_text "Select preview first")
  end.

(** [VMixControllerMobile.update_states], the poll tick. *)
Definition update_states : Prog Sys unit :=
  let* api := self vmix_api in
  match api with
  | None => ret tt
  | Some api =>
      let* new_active := call (get_active_input fromstring api) in
      let* new_preview := call (get_preview_input fromstring api) in
      let* a := self active_input in
      let* p := self preview_input in
      if bool_decide (new_active ≠ a) || bool_decide (new_preview ≠ p) then
        assign (set_active_input new_active) ;;
        assign (set_preview_input new_preview) ;;
        load_inputs
      else ret tt
  end.

End Methods.

End Mobile.

(** ** Persisted settings, [class Settings] of [src/main.py] *)

Module Settings.

(** The values [json.load] produces and [json.dump] accepts.  After
    [Settings.load] a field holds whatever the file gave for its key, so
    the fields are dynamically typed. *)
Inductive Json : Type :=
| JNone
| JBool (b : bool)
| JInt (z : Z)
| JFloat (f : float)
| JStr (s : string)
| JList (l : list Json)
| JDict (d : list (string * Json)).

(** Python's truth value of such a value. *)
Definition truthy (v : Json) : bool :=
  match v with
  | JNone => false
  | JBool b => b
  | JInt z => negb (z =? 0)%Z
  | JFloat f => negb (PrimFloat.eqb f 0%float)
  | JStr s => Py.truthy_str s
  | JList l => match l with [] => false | _ :: _ => true end
  | JDict d => match d with [] => false | _ :: _ => true end
  end.

Record Settings : Type := MkSettings {
  ip : Json;
  port : Json;
  login : Json;
  password : Json;
  remember_creds : Json;
  show_settings : Json;
  ui_scale : Json;
  fullscreen : Json;
  version : Json;
  scale_slider_step : Json
}.

(** [Settings.__init__] *)
Definition init : Settings :=
  {| ip := JStr "127.0.0.1";
     port := JStr "8088";
     login := JStr "";
     password := JStr "";
     remember_creds := JBool false;
     show_settings := JBool true;
     ui_scale := JFloat 1.0%float;
     fullscreen := JBool false;
     version := JFloat 1.2%float;
     scale_slider_step := JInt 5 |}.

(** The same settings with other credentials in memory. *)
Definition with_credentials (l p : Json) (s : Settings) : Settings :=
  {| ip := ip s; port := port s; login := l; password := p;
     remember_creds := remember_creds s; show_settings := show_settings s;
     ui_scale := ui_scale s; fullscreen := fullscreen s;
     version := version s; scale_slider_step := scale_slider_step s |}.

(** The dictionary [data] that [save] builds, in insertion order. *)
Definition save_data (s : Settings) : list (string * Json) :=
  [ ("ip", ip s);
    ("port", port s);
    ("login", if truthy (remember_creds s) then login s else JStr "");
    ("password", if truthy (remember_creds s) then password s else JStr "");
    ("remember_creds", remember_creds s);
    ("show_settings", show_settings s);
    ("ui_scale", ui_scale s);
    ("fullscreen", fullscreen s);
    ("version", version s);
    ("scale_slider_step", scale_slider_step s) ].

(** The file system: path to content.  I/O errors are not modelled. *)
Section Save.
(** [json.dump(data, f, indent=2)], as the text it writes. *)
Variable json_dump : list (string * Json) -> string.

(** [Settings.save] *)
Definition save (s : Settings) (fs : gmap string string) : gmap string string :=
  <["vmix_settings.json" := json_dump (save_data s)]> fs.

End Save.

End Settings.

(** ** Sample documents, parsers and networks

    Concrete inputs on which the statements below are exercised. *)

Module Sample.
Import Http Api.

Definition attrs (l : list (string * string)) : gmap string string :=
  list_to_map l.

Definition leaf (tag text : string) : Xml.Element :=
  Xml.Elem tag ∅ (Some text) [].

(** Two inputs, the second one with nothing but its number; input 1 is
    live and input 2 is in preview. *)
Definition body_a : string :=
  "<vmix><inputs><input number='1' title='Camera' type='Capture' state='Running' duration='0' position='0' shortTitle='Cam' key='k1'/><input number='2'/></inputs><active>1</active><preview>2</preview></vmix>".

Definition doc_a : Xml.Element :=
  Xml.Elem "vmix" ∅ None
    [ Xml.Elem "inputs" ∅ None
        [ Xml.Elem "input"
            (attrs [("number", "1"); ("title", "Camera"); ("type", "Capture");
                    ("state", "Running"); ("duration", "0"); ("position", "0");
                    ("shortTitle", "Cam"); ("key", "k1")]) None [];
          Xml.Elem "input" (attrs [("number", "2")]) None [] ];
      leaf "active" "1";
      leaf "preview" "2" ].

(** A later state of another production: a single input 7, live and in
    preview. *)
Definition body_b : string :=
  "<vmix><inputs><input number='7' title='Slides'/></inputs><active>7</active><preview>7</preview></vmix>".

Definition doc_b : Xml.Element :=
  Xml.Elem "vmix" ∅ None
    [ Xml.Elem "inputs" ∅ None
        [ Xml.Elem "input" (attrs [("number", "7"); ("title", "Slides")]) None [] ];
      leaf "active" "7";
      leaf "preview" "7" ].

(** A document without [active] and [preview]. *)
Definition body_c : string :=
  "<vmix><inputs><input number='1'/></inputs></vmix>".

Definition doc_c : Xml.Element :=
  Xml.Elem "vmix" ∅ None
    [ Xml.Elem "inputs" ∅ None
        [ Xml.Elem "input" (attrs [("number", "1")]) None [] ] ].

(** The parser on the sample documents; any other text is malformed. *)
Definition fromstring (s : string) : option Xml.Element :=
  if bool_decide (s = body_a) then Some doc_a
  else if bool_decide (s = body_b) then Some doc_b
  else if bool_decide (s = body_c) then Some doc_c
  else None.

Definition api : Api.vMixAPI := Desktop.new_vMixAPI "10.0.0.5" "8088".

Definition world (r : list string -> string -> Result) : World :=
  {| sent := []; respond := r |}.

(** No mixer at the address: every request raises. *)
Definition offline : World :=
  world (fun _ _ => Raises ConnectionError).

(** A mixer that answers every request with 200 and [body]. *)
Definition steady (body : string) : World :=
  world (fun _ _ => Response 200 body).

(** A mixer whose state changes after the first request. *)
Definition changing : World :=
  world (fun history _ =>
           match history with
           | [] => Response 200 body_a
           | _ :: _ => Response 200 body_b
           end).

(** A mixer that accepts every request except the one for [url], which it
    answers with status 500. *)
Definition rejecting (url : string) : World :=
  world (fun _ u =>
           if bool_decide (u = url) then Response 500 "" else Response 200 body_a).

(** A mixer that goes away after [n] requests. *)
Definition failing_after (n : nat) : World :=
  world (fun history _ =>
           if (List.length history <? n)%nat then Response 200 body_a
           else Raises Timeout).

(** The desktop controller connected to [api], input 1 live and input 2 in
    preview. *)
Definition desktop_on_air : Desktop.Controller :=
  Desktop.set_preview_input (Some "2")
    (Desktop.set_active_input (Some "1")
       (Desktop.set_vmix_api (Some api) Desktop.init)).

Definition mobile_api : Api.vMixAPI := Mobile.new_vMixAPI "10.0.0.5" "8088".

Definition mobile_on_air : Mobile.Controller :=
  Mobile.set_preview_input (Some "2")
    (Mobile.set_active_input (Some "1")
       (Mobile.set_vmix_api (Some mobile_api) Mobile.init)).

(** Input 3 selected for preview, input 1 live. *)
Definition desktop_preview3 : Desktop.Controller :=
  Desktop.set_preview_input (Some "3") desktop_on_air.

Definition mobile_preview3 : Mobile.Controller :=
  Mobile.set_preview_input (Some "3") mobile_on_air.

(** Overlays 1 and 3 showing. *)
Definition desktop_overlays : Desktop.Controller :=
  Desktop.set_active_overlays
    (<[1:=true]> (<[3:=true]> (Desktop.active_overlays Desktop.init)))
    desktop_on_air.

Definition fade3_url : string :=
  "http://10.0.0.5:8088/api/?Function=Fade&Input=3".

Definition cut3_url : string :=
  "http://10.0.0.5:8088/api/?Function=Cut&Input=3".

Definition overlay3_out_url : string :=
  "http://10.0.0.5:8088/api/?Function=OverlayInput3Out".

Definition ftb_url : string :=
  "http://10.0.0.5:8088/api/?Function=FadeToBlack".

(** A plain rendering of the settings dictionary, one [key: value] line per
    entry; enough to tell two written files apart. *)
Definition render (v : Settings.Json) : string :=
  match v with
  | Settings.JNone => "null"
  | Settings.JBool b => if b then "true" else "false"
  | Settings.JInt z => pretty z
  | Settings.JFloat _ => "<float>"
  | Settings.JStr s => "'" +:+ s +:+ "'"
  | Settings.JList _ => "[...]"
  | Settings.JDict _ => "{...}"
  end.

Definition json_dump (data : list (string * Settings.Json)) : string :=
  Py.join "," (map (fun kv => fst kv +:+ ": " +:+ render (snd kv)) data).


End Sample.


(** ** The flow layout, [class QFlowLayout] of [src/main.py]

    Qt's value classes are modelled by what the code uses of them:
    [QSize] (the default [QSize()] is [(-1, -1)], [expandedTo] is the
    componentwise maximum), [QRect] and [QMargins].  Their fields are C
    [int]s: a constructor called from Python raises [OverflowError] for an
    argument outside that range, and Qt's own arithmetic on them
    ([QRect.right()], [QSize +=]) is two's complement.  The variables of
    [doLayout] ([x], [y], [nextX], [lineHeight]) are Python integers, which
    are unbounded, so they are in [Z]; the positions it hands to
    [QPoint(x, y)] are taken to be in the range of a C [int].  [spacing] and [margins] are what
    [self.spacing()] and [self.contentsMargins()] return. *)

Module Flow.
Local Open Scope Z_scope.

(** The range of a C [int]. *)
Definition INT_MIN : Z := - 2 ^ 31.
Definition INT_MAX : Z := 2 ^ 31 - 1.

Definition in_int (z : Z) : bool := (INT_MIN <=? z) && (z <=? INT_MAX).

Definition representable (z : Z) : Prop := INT_MIN <= z <= INT_MAX.

(** The value of a C [int] computation whose exact result is [z]. *)
Definition wrap_int (z : Z) : Z := (z + 2 ^ 31) mod 2 ^ 32 - 2 ^ 31.

(** What a Qt constructor raises for a Python integer outside the range
    of a C [int]. *)
Inductive Raised : Type :=
| OverflowError.

Record QSize : Type := MkSize { width : Z; height : Z }.

Record QRect : Type := MkRect {
  rect_x : Z;
  rect_y : Z;
  rect_width : Z;
  rect_height : Z
}.

Record QMargins : Type := MkMargins {
  left : Z;
  top : Z;
  right_margin : Z;
  bottom : Z
}.

(** [rect.right()]: the rectangle keeps its right edge [x + width - 1]
    as a C [int]. *)
Definition right (r : QRect) : Z := wrap_int (rect_x r + rect_width r - 1).

(** [QRect(QPoint(x, y), size)] *)
Definition rect_at (x y : Z) (size : QSize) : QRect :=
  {| rect_x := x; rect_y := y;
     rect_width := width size; rect_height := height size |}.

(** [a.expandedTo(b)] *)
Definition expandedTo (a b : QSize) : QSize :=
  {| width := Z.max (width a) (width b);
     height := Z.max (height a) (height b) |}.

(** A [QLayoutItem]: its two size queries and the geometry last set. *)
Record Item : Type := MkItem {
  size_hint : QSize;
  minimum_size : QSize;
  geometry : QRect
}.

(** [item.setGeometry(rect)] *)
Definition set_item_geometry (r : QRect) (item : Item) : Item :=
  {| size_hint := size_hint item;
     minimum_size := minimum_size item;
     geometry := r |}.

Record Layout : Type := MkLayout {
  itemList : list Item;
  spacing : Z;
  margins : QMargins
}.

Definition set_itemList (items : list Item) (l : Layout) : Layout :=
  {| itemList := items; spacing := spacing l; margins := margins l |}.

(** [addItem(self, item)] *)
Definition addItem (item : Item) (l : Layout) : Layout :=
  set_itemList (itemList l ++ [item]) l.

(** [count(self)] *)
Definition count (l : Layout) : Z := Z.of_nat (length (itemList l)).

(** [itemAt(self, index)] *)
Definition itemAt (index : Z) (l : Layout) : option Item :=
  if (0 <=? index) && (index <? Z.of_nat (length (itemList l)))
  then itemList l !! Z.to_nat index
  else None.

(** [takeAt(self, index)]: the item popped, and the layout after it. *)
Definition takeAt (index : Z) (l : Layout) : option Item * Layout :=
  if (0 <=? index) && (index <? Z.of_nat (length (itemList l)))
  then (itemList l !! Z.to_nat index,
        set_itemList (take (Z.to_nat index) (itemList l)
                      ++ drop (S (Z.to_nat index)) (itemList l)) l)
  else (None, l).

(** The loop of [doLayout]: the items after it, and the final [y] and
    [lineHeight]. *)
Fixpoint doLayout_loop (rect : QRect) (space : Z) (testOnly : bool)
    (items : list Item) (x y lineHeight : Z) : list Item * (Z * Z) :=
  match items with
  | [] => ([], (y, lineHeight))
  | item :: rest =>
      let spaceX := space in
      let spaceY := space in
      let nextX := x + width (size_hint item) + spaceX in
      let wrap := (nextX - spaceX >? right rect) && (lineHeight >? 0) in
      let x1 := if wrap then rect_x rect else x in
      let y1 := if wrap then y + lineHeight + spaceY else y in
      let nextX1 :=
        if wrap then x1 + width (size_hint item) + spaceX else nextX in
      let lineHeight1 := if wrap then 0 else lineHeight in
      let item1 :=
        if testOnly then item
        else set_item_geometry (rect_at x1 y1 (size_hint item)) item in
      let '(rest1, final) :=
        doLayout_loop rect space testOnly rest nextX1 y1
          (Z.max lineHeight1 (height (size_hint item))) in
      (item1 :: rest1, final)
  end.

(** [doLayout(self, rect, testOnly)]: the height returned, and the layout
    with the items as the call leaves them. *)
Definition doLayout (rect : QRect) (testOnly : bool) (l : Layout)
    : Z * Layout :=
  let '(items, (y, lineHeight)) :=
    doLayout_loop rect (spacing l) testOnly (itemList l)
      (rect_x rect) (rect_y rect) 0 in
  (y + lineHeight - rect_y rect, set_itemList items l).

(** [heightForWidth(self, width)]: [QRect(0, 0, width, 0)] raises for a
    width that is no C [int]. *)
Definition heightForWidth (w : Z) (l : Layout) : Raised + Z * Layout :=
  if in_int w then
    inr (doLayout
           {| rect_x := 0; rect_y := 0; rect_width := w; rect_height := 0 |}
           true l)
  else inl OverflowError.

(** [setGeometry(self, rect)]; the rectangle that [QLayout.setGeometry]
    keeps for itself is not modelled. *)
Definition setGeometry (rect : QRect) (l : Layout) : Layout :=
  snd (doLayout rect false l).

(** [minimumSize(self)]: [QSize(2 * margin.left(), 2 * margin.top())]
    raises for a product that is no C [int], and [size += ...] adds C
    [int]s. *)
Definition minimumSize (l : Layout) : Raised + QSize :=
  let size :=
    fold_left (fun size item => expandedTo size (minimum_size item))
      (itemList l) {| width := -1; height := -1 |} in
  if in_int (2 * left (margins l)) && in_int (2 * top (margins l)) then
    inr {| width := wrap_int (width size + 2 * left (margins l));
           height := wrap_int (height size + 2 * top (margins l)) |}
  else inl OverflowError.

(** [sizeHint(self)] *)
Definition sizeHint (l : Layout) : Raised + QSize := minimumSize l.





End Flow.

(** ** Loading the settings, and the methods that save them *)

Module SettingsIO.
Import Settings.

(** What [Settings.load] lets escape: [json.load] on malformed text, and
    [data.get] on a document that is not an object. *)
Inductive LoadError : Type :=
| JSONDecodeError
| AttributeError.

(** [data.get(key, default)] *)
Definition get (data : list (string * Json)) (key : string) (dflt : Json)
    : Json :=
  default dflt (Py.dict_get key data).

(** The assignments of [load] for the object [data]. *)
Definition load_data (data : list (string * Json)) (s : Settings) : Settings :=
  {| ip := get data "ip" (ip s);
     port := get data "port" (port s);
     login := get data "login" (login s);
     password := get data "password" (password s);
     remember_creds := get data "remember_creds" (JBool false);
     show_settings := get data "show_settings" (JBool true);
     ui_scale := get data "ui_scale" (ui_scale s);
     fullscreen := get data "fullscreen" (JBool false);
     version := get data "version" (version s);
     scale_slider_step := get data "scale_slider_step" (scale_slider_step s) |}.

Section Files.
(** [json.dump(data, f, indent=2)], as the text it writes, and
    [json.load(f)] on a text; [None] is a raised [JSONDecodeError]. *)
Variable json_dump : list (string * Json) -> string.
Variable json_load : string -> option Json.

(** [Settings.load]: the error raised or the settings loaded, and the file
    system after it.  A missing file is created by [save]. *)
Definition load (s : Settings) (fs : gmap string string)
    : (LoadError + Settings) * gmap string string :=
  match fs !! "vmix_settings.json" with
  | None => (inr s, save json_dump s fs)
  | Some content =>
      match json_load content with
      | None => (inl JSONDecodeError, fs)
      | Some (JDict data) => (inr (load_data data s), fs)
      | Some _ => (inl AttributeError, fs)
      end
  end.

(** [VMixController.save_settings]; the arguments are the texts of the four
    edit fields and the state of the check box.  It returns the settings
    object, the file system and the status message. *)
Definition save_settings (ip_text port_text login_text pass_text : string)
    (remember : bool) (s : Settings) (fs : gmap string string)
    : Settings * gmap string string * string :=
  let s' :=
    {| ip := JStr ip_text;
       port := JStr port_text;
       login := JStr login_text;
       password := JStr pass_text;
       remember_creds := JBool remember;
       show_settings := show_settings s;
       ui_scale := ui_scale s;
       fullscreen := fullscreen s;
       version := version s;
       scale_slider_step := scale_slider_step s |} in
  (s', save json_dump s' fs, "Settings saved!").

End Files.

(** [self.settings.ip and self.settings.ip != "127.0.0.1"], the test of
    [auto_connect]. *)
Definition wants_auto_connect (settings_ip : Json) : bool :=
  truthy settings_ip &&
  negb (match settings_ip with
        | JStr s => bool_decide (s = "127.0.0.1")
        | _ => false
        end).

End SettingsIO.

(** ** More of the desktop controller *)

Module DesktopMore.
Import Http Api Desktop.
Local Open Scope prog_scope.

(** [VMixController.auto_connect]; [settings_ip] is [self.settings.ip],
    [ip] and [port] are the texts of the edit fields that
    [connect_to_vmix] reads. *)
Definition auto_connect (fromstring : string -> option Xml.Element)
    (settings_ip : Settings.Json) (ip port : string) : Prog Sys unit :=
  if SettingsIO.wants_auto_connect settings_ip
  then connect_to_vmix fromstring ip port
  else ret tt.

(** [VMixController.send_command] *)
Definition send_command (command : string) (params : list (string * string))
    : Prog Sys bool :=
  let* api := self vmix_api in
  match api with
  | Some api => call (Api.send_command api command params)
  | None => ret false
  end.

(** The protocol state of the controller, that is all of it but the trace
    of interface calls. *)
Definition same_state (c c' : Controller) : Prop :=
  vmix_api c' = vmix_api c /\
  input_tiles c' = input_tiles c /\
  active_input c' = active_input c /\
  preview_input c' = preview_input c /\
  ftb_timer c' = ftb_timer c /\
  ftb_active c' = ftb_active c /\
  active_overlays c' = active_overlays c.

End DesktopMore.

(** ** Persisted settings of the mobile controller *)

Module MobileSettings.
Import Settings.

Record Settings : Type := MkSettings { ip : Json; port : Json }.

(** [Settings.__init__] *)
Definition init : Settings :=
  {| ip := JStr "127.0.0.1"; port := JStr "8088" |}.

Definition save_data (s : Settings) : list (string * Json) :=
  [ ("ip", ip s); ("port", port s) ].

Section Files.
Variable json_dump : list (string * Json) -> string.
Variable json_load : string -> option Json.

(** [Settings.save] *)
Definition save (s : Settings) (fs : gmap string string) : gmap string string :=
  <["vmix_settings_mobile.json" := json_dump (save_data s)]> fs.

(** [Settings.load] *)
Definition load (s : Settings) (fs : gmap string string)
    : (SettingsIO.LoadError + Settings) * gmap string string :=
  match fs !! "vmix_settings_mobile.json" with
  | None => (inr s, save s fs)
  | Some content =>
      match json_load content with
      | None => (inl SettingsIO.JSONDecodeError, fs)
      | Some (JDict data) =>
          (inr {| ip := SettingsIO.get data "ip" (ip s);
                  port := SettingsIO.get data "port" (port s) |}, fs)
      | Some _ => (inl SettingsIO.AttributeError, fs)
      end
  end.

End Files.

End MobileSettings.

(** ** Shapes used in the statements about the client and the tiles *)

Module Shape.

(** The query that follows the command name: one [&key=value] per
    parameter. *)
Fixpoint query (params : list (string * string)) : string :=
  match params with
  | [] => ""
  | kv :: rest => "&" +:+ fst kv +:+ "=" +:+ snd kv +:+ query rest
  end.

(** A request that gives its caller nothing to decode: an exception or a
    status other than 200, an empty body, or a body that does not parse. *)
Definition failed (fromstring : string -> option Xml.Element)
    (r : Http.Result) : Prop :=
  Api.xml_data_of r = None \/
  Api.xml_data_of r = Some "" \/
  (exists body, Api.xml_data_of r = Some body /\ fromstring body = None).

End Shape.

(** ** More sample inputs *)

Module Cases.
Import Flow.
Local Open Scope Z_scope.

Definition tile (w h : Z) : Item :=
  {| size_hint := {| width := w; height := h |};
     minimum_size := {| width := w; height := h |};
     geometry := {| rect_x := 0; rect_y := 0; rect_width := 0;
                    rect_height := 0 |} |}.

(** Three tiles of 130 by 100, as [InputTile] has them at scale 1, and a
    smaller one, with the spacing and margins that [setup_ui] sets. *)
Definition tiles : Layout :=
  {| itemList := [tile 130 100; tile 130 100; tile 130 100; tile 90 60];
     spacing := 10;
     margins := {| left := 35; top := 20; right_margin := 35; bottom := 20 |} |}.


(** A rectangle 100 wide whose right edge is past the range of a C
    [int], and a layout without spacing of two small items. *)
Definition far_area : QRect :=
  {| rect_x := 2147483600; rect_y := 0; rect_width := 100; rect_height := 0 |}.

Definition small_pair : Layout :=
  {| itemList := [tile 40 10; tile 40 10];
     spacing := 0;
     margins := {| left := 0; top := 0; right_margin := 0; bottom := 0 |} |}.

(** A mixer that shows the second sample document for two requests and
    the first one from then on. *)
Definition flapping : Http.World :=
  Sample.world (fun history _ =>
                  if (List.length history <? 2)%nat
                  then Http.Response 200 Sample.body_b
                  else Http.Response 200 Sample.body_a).

(** A mixer that answers every request with 404, and one that lets every
    request time out. *)
Definition not_found : Http.World :=
  Sample.world (fun _ _ => Http.Response 404 "").

Definition timing_out : Http.World :=
  Sample.world (fun _ _ => Http.Raises Http.Timeout).

(** A production that has no inputs yet, and the parser that knows it. *)
Definition body_empty : string := "<vmix><inputs/><active>0</active></vmix>".

Definition doc_empty : Xml.Element :=
  Xml.Elem "vmix" ∅ None
    [ Xml.Elem "inputs" ∅ None []; Sample.leaf "active" "0" ].

Definition fromstring (s : string) : option Xml.Element :=
  if bool_decide (s = body_empty) then Some doc_empty
  else Sample.fromstring s.

(** The inputs decoded from the first sample document. *)
Definition two_inputs : list Desktop.InputData :=
  Desktop.decode_inputs Sample.fromstring (Some Sample.body_a).

(** The settings object after the operator typed an address and
    credentials and pressed "Save", with "remember" unchecked and
    checked. *)
Definition saved_forgetting : Settings.Settings :=
  fst (fst (SettingsIO.save_settings Sample.json_dump
              "10.0.0.5" "8088" "operator" "hunter2" false Settings.init ∅)).

Definition saved_remembering : Settings.Settings :=
  fst (fst (SettingsIO.save_settings Sample.json_dump
              "10.0.0.5" "8088" "operator" "hunter2" true Settings.init ∅)).

(** A reader for the texts that [Sample.json_dump] writes for these
    settings; any other text is malformed. *)
Definition json_load (content : string) : option Settings.Json :=
  if bool_decide (content
                  = Sample.json_dump (Settings.save_data Settings.init))
  then Some (Settings.JDict (Settings.save_data Settings.init))
  else if bool_decide (content
                       = Sample.json_dump (Settings.save_data saved_forgetting))
  then Some (Settings.JDict (Settings.save_data saved_forgetting))
  else if bool_decide (content
                       = Sample.json_dump (Settings.save_data saved_remembering))
  then Some (Settings.JDict (Settings.save_data saved_remembering))
  else if bool_decide (content
                       = Sample.json_dump
                           (MobileSettings.save_data MobileSettings.init))
  then Some (Settings.JDict (MobileSettings.save_data MobileSettings.init))
  else None.

End Cases.

(** * Properties *)

(** ** The API client *)

Section ApiFacts.
Import Http Api.
Variable fromstring : string -> option Xml.Element.

Lemma send_command_run (api : vMixAPI) command params (w : World) :
  send_command api command params w =
  (succeeded (answer w (command_url api command params)),
   logged (command_url api command params) w).
Proof.
  unfold send_command, bind, requests_get, answer, logged.
  destruct (respond w (sent w) _); reflexivity.
Qed.

Lemma get_xml_data_run (api : vMixAPI) (w : World) :
  get_xml_data api w =
  (xml_data_of (answer w (state_url api)), logged (state_url api) w).
Proof.
  unfold get_xml_data, bind, requests_get, answer, logged, xml_data_of.
  destruct (respond w (sent w) _) as [[]|code body]; try reflexivity.
  destruct (bool_decide (code = 200%Z)); reflexivity.
Qed.

Lemma get_active_input_run (api : vMixAPI) (w : World) :
  get_active_input fromstring api w =
  (top_level_text fromstring "active" (xml_data_of (answer w (state_url api))),
   logged (state_url api) w).
Proof. unfold get_active_input, bind. rewrite get_xml_data_run. reflexivity. Qed.

Lemma get_preview_input_run (api : vMixAPI) (w : World) :
  get_preview_input fromstring api w =
  (top_level_text fromstring "preview" (xml_data_of (answer w (state_url api))),
   logged (state_url api) w).
Proof. unfold get_preview_input, bind. rewrite get_xml_data_run. reflexivity. Qed.

(** A snapshot that was fetched and parsed: [top_level_text] is the text
    of the first element with that name, or [None] without one. *)
Lemma top_level_text_parsed name body root :
  Py.truthy_str body = true ->
  fromstring body = Some root ->
  top_level_text fromstring name (Some body) =
  match Xml.find name root with
  | Some elem => Xml.text elem
  | None => None
  end.
Proof. intros Hb Hp. unfold top_level_text. rewrite Hb, Hp. reflexivity. Qed.

(** C9. Whenever the snapshot is fetched (status 200, non-empty body) and
    parses to [root]: if [root] has a top-level [active] element whose text
    is [n] - in particular the number of one of the inputs - then
    [get_active_input] returns that same [n], and if [root] has no
    [active] element it returns [None]; the same for [preview] and
    [get_preview_input]. *)
Theorem active_preview_round_trip (api : vMixAPI) (w : World) body root :
  answer w (state_url api) = Response 200 body ->
  Py.truthy_str body = true ->
  fromstring body = Some root ->
  (forall elem n,
      Xml.find "active" root = Some elem -> Xml.text elem = Some n ->
      fst (get_active_input fromstring api w) = Some n) /\
  (Xml.find "active" root = None ->
   fst (get_active_input fromstring api w) = None) /\
  (forall elem n,
      Xml.find "preview" root = Some elem -> Xml.text elem = Some n ->
      fst (get_preview_input fromstring api w) = Some n) /\
  (Xml.find "preview" root = None ->
   fst (get_preview_input fromstring api w) = None).
Proof.
  intros Hr Hb Hp.
  rewrite get_active_input_run, get_preview_input_run, Hr. cbn [fst xml_data_of].
  replace (bool_decide (200%Z = 200%Z)) with true by reflexivity.
  rewrite !(top_level_text_parsed _ body root Hb Hp).
  repeat split.
  - intros elem n Hf Ht. rewrite Hf. exact Ht.
  - intros Hf. rewrite Hf. reflexivity.
  - intros elem n Hf Ht. rewrite Hf. exact Ht.
  - intros Hf. rewrite Hf. reflexivity.
Qed.

End ApiFacts.

Lemma active_preview_round_trip_witness :
  (Http.answer (Sample.steady Sample.body_a) (Api.state_url Sample.api)
     = Http.Response 200 Sample.body_a /\
   Py.truthy_str Sample.body_a = true /\
   Sample.fromstring Sample.body_a = Some Sample.doc_a) /\
  fst (Api.get_active_input Sample.fromstring Sample.api
         (Sample.steady Sample.body_a)) = Some "1" /\
  fst (Api.get_preview_input Sample.fromstring Sample.api
         (Sample.steady Sample.body_a)) = Some "2".
Proof.
  split; [repeat split; reflexivity |].
  destruct (active_preview_round_trip Sample.fromstring Sample.api
              (Sample.steady Sample.body_a) Sample.body_a Sample.doc_a
              eq_refl eq_refl eq_refl) as (Ha & _ & Hp & _).
  split; [eapply Ha | eapply Hp]; reflexivity.
Defined.

(** ** The decoder of the input list *)

Section DecoderFacts.
Import Http Api.
Variable fromstring : string -> option Xml.Element.

Lemma findall_inputs (root : Xml.Element) :
  Xml.findall ["inputs"; "input"] root =
  flat_map (Xml.children_with "input") (Xml.children_with "inputs" root).
Proof. unfold Xml.findall. simpl. rewrite app_nil_r. reflexivity. Qed.

Lemma desktop_get_inputs_run (api : vMixAPI) (w : World) :
  Desktop.get_inputs fromstring api w =
  (Desktop.decode_inputs fromstring (xml_data_of (answer w (state_url api))),
   logged (state_url api) w).
Proof. unfold Desktop.get_inputs, bind. rewrite get_xml_data_run. reflexivity. Qed.

Lemma mobile_get_inputs_run (api : vMixAPI) (w : World) :
  Mobile.get_inputs fromstring api w =
  (Mobile.decode_inputs fromstring (xml_data_of (answer w (state_url api))),
   logged (state_url api) w).
Proof. unfold Mobile.get_inputs, bind. rewrite get_xml_data_run. reflexivity. Qed.

Lemma desktop_get_inputs_parsed (api : vMixAPI) (w : World) body root :
  answer w (state_url api) = Response 200 body ->
  Py.truthy_str body = true ->
  fromstring body = Some root ->
  fst (Desktop.get_inputs fromstring api w) =
  map Desktop.input_data
    (flat_map (Xml.children_with "input") (Xml.children_with "inputs" root)).
Proof.
  intros Hr Hb Hp. rewrite desktop_get_inputs_run, Hr. cbn [fst xml_data_of].
  replace (bool_decide (200%Z = 200%Z)) with true by reflexivity.
  unfold Desktop.decode_inputs. rewrite Hb, Hp, findall_inputs. reflexivity.
Qed.

Lemma mobile_get_inputs_parsed (api : vMixAPI) (w : World) body root :
  answer w (state_url api) = Response 200 body ->
  Py.truthy_str body = true ->
  fromstring body = Some root ->
  fst (Mobile.get_inputs fromstring api w) =
  map Mobile.input_data
    (flat_map (Xml.children_with "input") (Xml.children_with "inputs" root)).
Proof.
  intros Hr Hb Hp. rewrite mobile_get_inputs_run, Hr. cbn [fst xml_data_of].
  replace (bool_decide (200%Z = 200%Z)) with true by reflexivity.
  unfold Mobile.decode_inputs. rewrite Hb, Hp, findall_inputs. reflexivity.
Qed.

(** C8, as the code has it. Whenever the snapshot is fetched and parses
    to [root], with [elems] the [input] elements under [inputs] in
    document order, both decoders return as many records as there are
    elements, and the i-th record is decoded from the i-th element: it has
    its [number], its [title] when present, and ["Input {number}"] for a
    missing [title].  The desktop record has in addition the element's
    [type], [duration] and [position] when present, ["Unknown"] for a
    missing [type] and ["0"] for a missing [duration] or [position].  The
    mobile record has the keys [number], [title] and [short_title] and no
    others. *)
Theorem get_inputs_document_order (api : vMixAPI) (w : World) body root :
  answer w (state_url api) = Response 200 body ->
  Py.truthy_str body = true ->
  fromstring body = Some root ->
  let elems :=
    flat_map (Xml.children_with "input") (Xml.children_with "inputs" root) in
  let inputs := fst (Desktop.get_inputs fromstring api w) in
  let mobile_inputs := fst (Mobile.get_inputs fromstring api w) in
  (length inputs = length elems /\
   forall i elem, elems !! i = Some elem ->
     exists d, inputs !! i = Some d /\
       Desktop.number d = Xml.get elem "number" /\
       (forall t, Xml.get elem "title" = Some t -> Desktop.title d = t) /\
       (forall t, Xml.get elem "type" = Some t -> Desktop.type d = t) /\
       (forall t, Xml.get elem "duration" = Some t -> Desktop.duration d = t) /\
       (forall t, Xml.get elem "position" = Some t -> Desktop.position d = t) /\
       (Xml.get elem "title" = None ->
        Desktop.title d = "Input " +:+ Py.fmt (Xml.get elem "number")) /\
       (Xml.get elem "type" = None -> Desktop.type d = "Unknown") /\
       (Xml.get elem "duration" = None -> Desktop.duration d = "0") /\
       (Xml.get elem "position" = None -> Desktop.position d = "0")) /\
  (length mobile_inputs = length elems /\
   forall i elem, elems !! i = Some elem ->
     exists d, mobile_inputs !! i = Some d /\
       Mobile.number d = Xml.get elem "number" /\
       (forall t, Xml.get elem "title" = Some t -> Mobile.title d = t) /\
       (Xml.get elem "title" = None ->
        Mobile.title d = "Input " +:+ Py.fmt (Xml.get elem "number")) /\
       map fst (Mobile.as_dict d) = ["number"; "title"; "short_title"]).
Proof.
  intros Hr Hb Hp elems inputs mobile_inputs.
  assert (Hin : inputs = map Desktop.input_data elems)
    by exact (desktop_get_inputs_parsed api w body root Hr Hb Hp).
  assert (Hmob : mobile_inputs = map Mobile.input_data elems)
    by exact (mobile_get_inputs_parsed api w body root Hr Hb Hp).
  rewrite Hin, Hmob. split.
  - split; [apply length_map |].
    intros i elem Hi. exists (Desktop.input_data elem).
    split; [rewrite list_lookup_fmap, Hi; reflexivity |].
    unfold Desktop.input_data, Xml.get_default, Xml.get. cbn.
    repeat split; intros; repeat match goal with
    | H : Xml.attrib _ !! _ = _ |- _ => rewrite H
    end; reflexivity.
  - split; [apply length_map |].
    intros i elem Hi. exists (Mobile.input_data elem).
    split; [rewrite list_lookup_fmap, Hi; reflexivity |].
    unfold Mobile.input_data, Xml.get_default, Xml.get. cbn.
    repeat split; intros; repeat match goal with
    | H : Xml.attrib _ !! _ = _ |- _ => rewrite H
    end; reflexivity.
Qed.

(** The mobile decoder keeps three fields; for those it agrees with the
    desktop one. *)
Lemma mobile_get_inputs_projection (api : vMixAPI) (w : World) body root :
  answer w (state_url api) = Response 200 body ->
  Py.truthy_str body = true ->
  fromstring body = Some root ->
  fst (Mobile.get_inputs fromstring api w) =
  map (fun d => {| Mobile.number := Desktop.number d;
                   Mobile.title := Desktop.title d;
                   Mobile.short_title := Desktop.short_title d |})
      (fst (Desktop.get_inputs fromstring api w)).
Proof.
  intros Hr Hb Hp. rewrite (desktop_get_inputs_parsed _ _ _ _ Hr Hb Hp).
  rewrite mobile_get_inputs_run, Hr. cbn [fst xml_data_of].
  replace (bool_decide (200%Z = 200%Z)) with true by reflexivity.
  unfold Mobile.decode_inputs. rewrite Hb, Hp, findall_inputs.
  rewrite map_map. reflexivity.
Qed.

End DecoderFacts.

Lemma get_inputs_document_order_witness :
  (Http.answer (Sample.steady Sample.body_a) (Api.state_url Sample.api)
     = Http.Response 200 Sample.body_a /\
   Py.truthy_str Sample.body_a = true /\
   Sample.fromstring Sample.body_a = Some Sample.doc_a) /\
  length (fst (Desktop.get_inputs Sample.fromstring Sample.api
                 (Sample.steady Sample.body_a))) = 2 /\
  exists d,
    fst (Desktop.get_inputs Sample.fromstring Sample.api
           (Sample.steady Sample.body_a)) !! 1 = Some d /\
    Desktop.number d = Some "2" /\
    Desktop.title d = "Input 2" /\
    Desktop.type d = "Unknown" /\
    Desktop.duration d = "0" /\
    Desktop.position d = "0" /\
    exists m,
      fst (Mobile.get_inputs Sample.fromstring Sample.api
             (Sample.steady Sample.body_a)) !! 1 = Some m /\
      Mobile.number m = Some "2" /\
      Mobile.title m = "Input 2" /\
      map fst (Mobile.as_dict m) = ["number"; "title"; "short_title"].
Proof.
  split; [repeat split; reflexivity |].
  destruct (get_inputs_document_order Sample.fromstring Sample.api
              (Sample.steady Sample.body_a) Sample.body_a Sample.doc_a
              eq_refl eq_refl eq_refl) as [[Hlen Hall] [_ Hmob]].
  split; [exact Hlen |].
  destruct (Hall 1 (Xml.Elem "input" (Sample.attrs [("number", "2")]) None [])
              eq_refl)
    as (d & Hd & Hn & _ & _ & _ & _ & Ht & Hty & Hdu & Hpo).
  destruct (Hmob 1 (Xml.Elem "input" (Sample.attrs [("number", "2")]) None [])
              eq_refl)
    as (m & Hm & Hmn & _ & Hmt & Hkeys).
  exists d. split; [exact Hd |]. split; [exact Hn |].
  split; [exact (Ht eq_refl) |]. split; [exact (Hty eq_refl) |].
  split; [exact (Hdu eq_refl) |]. split; [exact (Hpo eq_refl) |].
  exists m. split; [exact Hm |]. split; [exact Hmn |].
  split; [exact (Hmt eq_refl) | exact Hkeys].
Defined.

(** The claim of C8 fails on the mobile decoder.  The second input of
    the sample snapshot has nothing but its number.  The desktop record for
    it has ["Unknown"], ["0"] and ["0"] under [type], [duration] and
    [position]; the mobile record for it has the default title and no such
    keys at all. *)
Lemma mobile_get_inputs_has_no_type :
  let w := Sample.steady Sample.body_a in
  exists d m,
    fst (Desktop.get_inputs Sample.fromstring Sample.api w) !! 1 = Some d /\
    fst (Mobile.get_inputs Sample.fromstring Sample.mobile_api w) !! 1
      = Some m /\
    Py.dict_get "type" (Desktop.as_dict d) = Some (Some "Unknown") /\
    Py.dict_get "duration" (Desktop.as_dict d) = Some (Some "0") /\
    Py.dict_get "position" (Desktop.as_dict d) = Some (Some "0") /\
    Py.dict_get "title" (Mobile.as_dict m) = Some (Some "Input 2") /\
    Py.dict_get "type" (Mobile.as_dict m) = None /\
    Py.dict_get "duration" (Mobile.as_dict m) = None /\
    Py.dict_get "position" (Mobile.as_dict m) = None.
Proof.
  eexists. eexists. split; [reflexivity |]. split; [reflexivity |].
  repeat split.
Qed.

(** ** Persisted settings *)

Section SettingsFacts.
Import Settings.
Variable json_dump : list (string * Json) -> string.


(** With [remember_creds] true the credentials are written as they are. *)
Lemma save_remembers_credentials (s : Settings) :
  truthy (remember_creds s) = true ->
  Py.dict_get "login" (save_data s) = Some (login s) /\
  Py.dict_get "password" (save_data s) = Some (password s).
Proof. intros Hr. unfold save_data. rewrite Hr. split; reflexivity. Qed.

End SettingsFacts.


(** ** Running controller programs step by step *)

Lemma bind_assoc {S A B D : Type} (m : Prog S A) (f : A -> Prog S B)
    (k : B -> Prog S D) (s : S) :
  bind (bind m f) k s = bind m (fun x => bind (f x) k) s.
Proof. unfold bind. destruct (m s) as [a s']. reflexivity. Qed.

Section Stepping.
Import Http Api.
Context {C A B : Type}.
Implicit Types (c : C) (w : World).

Lemma step_ret (a : A) (k : A -> Prog (C * World) B) s :
  bind (ret a) k s = k a s.
Proof. reflexivity. Qed.

Lemma step_self (f : C -> A) (k : A -> Prog (C * World) B) c w :
  bind (self f) k (c, w) = k (f c) (c, w).
Proof. reflexivity. Qed.

Lemma step_assign (f : C -> C) (k : unit -> Prog (C * World) B) c w :
  bind (assign f) k (c, w) = k tt (f c, w).
Proof. reflexivity. Qed.

Lemma step_send (api : vMixAPI) command params
    (k : bool -> Prog (C * World) B) c w :
  bind (call (send_command api command params)) k (c, w) =
  k (succeeded (answer w (command_url api command params)))
    (c, logged (command_url api command params) w).
Proof.
  unfold bind, call. cbn [fst snd]. rewrite send_command_run. reflexivity.
Qed.

Lemma step_get_xml_data (api : vMixAPI)
    (k : option string -> Prog (C * World) B) c w :
  bind (call (get_xml_data api)) k (c, w) =
  k (xml_data_of (answer w (state_url api))) (c, logged (state_url api) w).
Proof.
  unfold bind, call. cbn [fst snd]. rewrite get_xml_data_run. reflexivity.
Qed.

Lemma step_get_active fromstring (api : vMixAPI)
    (k : option string -> Prog (C * World) B) c w :
  bind (call (get_active_input fromstring api)) k (c, w) =
  k (top_level_text fromstring "active"
       (xml_data_of (answer w (state_url api))))
    (c, logged (state_url api) w).
Proof.
  unfold bind, call. cbn [fst snd]. rewrite get_active_input_run. reflexivity.
Qed.

Lemma step_get_preview fromstring (api : vMixAPI)
    (k : option string -> Prog (C * World) B) c w :
  bind (call (get_preview_input fromstring api)) k (c, w) =
  k (top_level_text fromstring "preview"
       (xml_data_of (answer w (state_url api))))
    (c, logged (state_url api) w).
Proof.
  unfold bind, call. cbn [fst snd]. rewrite get_preview_input_run. reflexivity.
Qed.

Lemma last_assign (f : C -> C) c w : assign f (c, w) = (tt, (f c, w)).
Proof. reflexivity. Qed.

Lemma last_ret (a : A) (s : C * World) : ret a s = (a, s).
Proof. reflexivity. Qed.

End Stepping.

Ltac step :=
  repeat (first
    [ rewrite bind_assoc | rewrite step_ret | rewrite step_self
    | rewrite step_assign | rewrite step_send | rewrite step_get_xml_data
    | rewrite step_get_active | rewrite step_get_preview
    | rewrite last_assign | rewrite last_ret ];
    cbv beta iota).

Ltac desktop_ui :=
  unfold Desktop.update_tile_styles, Desktop.update_input_info,
    Desktop.update_all_styles, Desktop.show_message, Desktop.ui_call.

(** ** The desktop poll tick *)

Section DesktopPoll.
Import Http Api Desktop.
Variable fromstring : string -> option Xml.Element.

(** The poll tick of a connected controller, as one equation. *)
Lemma update_states_run (c : Controller) (w : World) (api : vMixAPI) :
  vmix_api c = Some api ->
  let url := state_url api in
  let new_active :=
    top_level_text fromstring "active" (xml_data_of (answer w url)) in
  let new_preview :=
    top_level_text fromstring "preview"
      (xml_data_of (answer (logged url w) url)) in
  update_states fromstring (c, w) =
  (tt, (if bool_decide (new_active <> active_input c)
           || bool_decide (new_preview <> preview_input c)
        then set_ui (ui c ++ [UpdateTileStyles new_active new_preview;
                              UpdateInputInfo new_active new_preview])
               (set_preview_input new_preview (set_active_input new_active c))
        else c,
        logged url (logged url w))).
Proof.
  intros Hapi url new_active new_preview.
  unfold update_states. desktop_ui. step. rewrite Hapi. step.
  fold url new_active new_preview.
  destruct (bool_decide (new_active <> active_input c)
            || bool_decide (new_preview <> preview_input c)).
  - step. destruct c; cbn. rewrite <- app_assoc. reflexivity.
  - reflexivity.
Qed.

(** A tick never disconnects: the API handle is left alone. *)
Lemma update_states_stays_connected (c : Controller) (w : World) :
  vmix_api (fst (snd (update_states fromstring (c, w)))) = vmix_api c.
Proof.
  destruct (vmix_api c) as [api |] eqn:Hapi.
  - rewrite (update_states_run c w api Hapi). cbn [fst snd].
    match goal with |- context [if ?b then _ else _] => destruct b end;
      exact Hapi.
  - unfold update_states. step. rewrite Hapi. step. exact Hapi.
Qed.

(** What a failed fetch or decode gives to the tick: [None]. *)
Lemma top_level_text_failure name (r : Result) :
  xml_data_of r = None \/
  xml_data_of r = Some "" \/
  (exists body, xml_data_of r = Some body /\ fromstring body = None) ->
  top_level_text fromstring name (xml_data_of r) = None.
Proof.
  intros [H | [H | (body & H & Hp)]]; rewrite H; cbn; try reflexivity.
  rewrite Hp. destruct (Py.truthy_str body); reflexivity.
Qed.

(** The tick does not skip a failure: when both fetches of a tick give
    [None], the stored pair ends as [(None, None)], whatever it was. *)
Lemma update_states_failure_clears (c : Controller) (w : World) (api : vMixAPI) :
  vmix_api c = Some api ->
  fst (get_active_input fromstring api w) = None ->
  fst (get_preview_input fromstring api
         (snd (get_active_input fromstring api w))) = None ->
  active_input (fst (snd (update_states fromstring (c, w)))) = None /\
  preview_input (fst (snd (update_states fromstring (c, w)))) = None.
Proof.
  intros Hapi. rewrite get_active_input_run. cbn [fst snd].
  rewrite get_preview_input_run. cbn [fst snd]. intros Ha Hp.
  rewrite (update_states_run c w api Hapi). cbn [fst snd].
  rewrite Ha, Hp.
  destruct (bool_decide (None <> active_input c)) eqn:E1;
    destruct (bool_decide (None <> preview_input c)) eqn:E2;
    cbn [orb]; try (split; reflexivity).
  apply bool_decide_eq_false_1 in E1, E2.
  split; symmetry; [apply dec_stable in E1; exact E1
                   | apply dec_stable in E2; exact E2].
Qed.

End DesktopPoll.

(** Two ticks in a row that fetch what is stored: the second one (like the
    first) changes nothing and notifies nobody. *)
Example update_states_quiet_when_unchanged :
  let s1 := snd (Desktop.update_states Sample.fromstring
                   (Sample.desktop_on_air, Sample.steady Sample.body_a)) in
  let s2 := snd (Desktop.update_states Sample.fromstring s1) in
  fst s1 = Sample.desktop_on_air /\ fst s2 = Sample.desktop_on_air /\
  length (Http.sent (snd s2)) = 4.
Proof. repeat split. Qed.

(** C1. The tick does not skip a failed fetch or decode.  A connected
    controller that holds active ["1"] and preview ["2"] and polls a mixer
    that does not answer ends the tick with both cleared to [None] and with
    the interface repainted; the same happens when the mixer answers with a
    body that does not parse.  Only the connection survives the tick. *)
Theorem poll_failure_clears_stored_state :
  let malformed := Sample.steady "<vmix><inputs>" in
  let c1 := fst (snd (Desktop.update_states Sample.fromstring
                        (Sample.desktop_on_air, Sample.offline))) in
  let c2 := fst (snd (Desktop.update_states Sample.fromstring
                        (Sample.desktop_on_air, malformed))) in
  (Desktop.active_input Sample.desktop_on_air = Some "1" /\
   Desktop.preview_input Sample.desktop_on_air = Some "2") /\
  (Desktop.active_input c1 = None /\ Desktop.preview_input c1 = None /\
   Desktop.ui c1 = [Desktop.UpdateTileStyles None None;
                    Desktop.UpdateInputInfo None None] /\
   Desktop.vmix_api c1 = Some Sample.api) /\
  (Desktop.active_input c2 = None /\ Desktop.preview_input c2 = None /\
   Desktop.ui c2 = [Desktop.UpdateTileStyles None None;
                    Desktop.UpdateInputInfo None None] /\
   Desktop.vmix_api c2 = Some Sample.api).
Proof. repeat split. Qed.

(** The mobile tick clears the stored pair in the same way. *)
Example mobile_tick_failure_clears_stored_pair :
  let c1 := fst (snd (Mobile.update_states Sample.fromstring
                        (Sample.mobile_on_air, Sample.offline))) in
  Mobile.active_input c1 = None /\ Mobile.preview_input c1 = None /\
  Mobile.inputs c1 = [] /\
  Mobile.vmix_api c1 = Some Sample.mobile_api.
Proof. repeat split. Qed.

(** ** The desktop dispatcher *)

Section DesktopDispatch.
Import Http Api Desktop.

(** C3, for the desktop controller. [quick_play] with no preview selected
    ([None] or the empty string) reports "Select input in preview first!"
    and sends nothing.  Connected and with a preview selected it sends [Fade] for the preview
    input; if that succeeds, [active_input] becomes the preview input and
    the smooth transition is reported.  If [Fade] fails it sends [Cut] for
    the same input, once; if that succeeds, [active_input] becomes the
    preview input and the cut is reported.  Only when both fail is an
    error reported, and then [active_input] is left as it was. *)
Theorem quick_play_fallback (c : Controller) (w : World) :
  (Py.truthy (preview_input c) = false ->
   quick_play (c, w) =
   (tt, (set_ui (ui c ++ [ShowMessage "❌ Select input in preview first!"]) c,
         w))) /\
  (forall api, vmix_api c = Some api -> Py.truthy (preview_input c) = true ->
   let input := Py.fmt (preview_input c) in
   let fade := command_url api "Fade" [("Input", input)] in
   let cut := command_url api "Cut" [("Input", input)] in
   let repaint := [UpdateTileStyles (preview_input c) (preview_input c);
                   UpdateInputInfo (preview_input c) (preview_input c);
                   FlashButton] in
   (succeeded (answer w fade) = true ->
    quick_play (c, w) =
    (tt, (set_ui (ui c ++ repaint ++
                    [ShowMessage ("🔄 Smooth transition to V" +:+ input)])
            (set_active_input (preview_input c) c),
          logged fade w))) /\
   (succeeded (answer w fade) = false ->
    succeeded (answer (logged fade w) cut) = true ->
    quick_play (c, w) =
    (tt, (set_ui (ui c ++ repaint ++
                    [ShowMessage ("✅ Cut transition to V" +:+ input)])
            (set_active_input (preview_input c) c),
          logged cut (logged fade w)))) /\
   (succeeded (answer w fade) = false ->
    succeeded (answer (logged fade w) cut) = false ->
    quick_play (c, w) =
    (tt, (set_ui (ui c ++ [ShowMessage "❌ Transition error"]) c,
          logged cut (logged fade w))))).
Proof.
  split.
  - intros Hp. unfold quick_play. desktop_ui. step. rewrite Hp.
    destruct (vmix_api c); step; reflexivity.
  - intros api Hapi Hp input fade cut repaint.
    unfold quick_play. desktop_ui. step. rewrite Hapi, Hp. step.
    fold input fade.
    repeat split.
    + intros Hf. rewrite Hf. step.
      destruct c; cbn. rewrite <- !app_assoc. reflexivity.
    + intros Hf Hc. rewrite Hf. step. fold cut. rewrite Hc. step.
      destruct c; cbn. rewrite <- !app_assoc. reflexivity.
    + intros Hf Hc. rewrite Hf. step. fold cut. rewrite Hc. step.
      reflexivity.
Qed.

(** What [fade_to_black] does in each of its four cases. *)
Lemma fade_to_black_run (c : Controller) (w : World) (api : vMixAPI) :
  vmix_api c = Some api ->
  let url := command_url api "FadeToBlack" [] in
  fade_to_black (c, w) =
  (tt,
   (match ftb_active c, succeeded (answer w url) with
    | false, true =>
        set_ui (ui c ++ [FtbStyle true; ShowMessage "🌙 Fade To Black enabled"])
          (set_ftb_timer true (set_ftb_active true c))
    | false, false =>
        set_ui (ui c ++ [FtbStyle true; FtbStyle false;
                         ShowMessage "❌ Fade To Black error"])
          (set_ftb_active false c)
    | true, true =>
        set_ui (ui c ++ [FtbStyle false;
                         ShowMessage "🌙 Fade To Black disabled"])
          (set_ftb_timer false (set_ftb_active false c))
    | true, false => set_ftb_active false c
    end, logged url w)).
Proof.
  intros Hapi url. unfold fade_to_black. desktop_ui. step. rewrite Hapi. step.
  fold url.
  destruct (ftb_active c) eqn:Hf; cbn [negb set_ftb_active ftb_active]; step;
    fold url; destruct (succeeded (answer w url)); step;
    destruct c; cbn; rewrite <- ?app_assoc; reflexivity.
Qed.

(** The branches of [fade_to_black] that revert and report.
    [fade_to_black] flips [ftb_active] and sends one [FadeToBlack].  When
    the command succeeds the flip stands.  When the flip was from off to
    on and the command fails, the flip is undone ([ftb_active] is off
    again) and "Fade To Black error" is reported. *)
Lemma fade_to_black_switch_on (c : Controller) (w : World) (api : vMixAPI) :
  vmix_api c = Some api ->
  let url := command_url api "FadeToBlack" [] in
  let c' := fst (snd (fade_to_black (c, w))) in
  let w' := snd (snd (fade_to_black (c, w))) in
  w' = logged url w /\
  (succeeded (answer w url) = true ->
   ftb_active c' = negb (ftb_active c) /\
   ftb_timer c' = negb (ftb_active c)) /\
  (ftb_active c = false -> succeeded (answer w url) = false ->
   ftb_active c' = false /\
   ui c' = ui c ++ [FtbStyle true; FtbStyle false;
                    ShowMessage "❌ Fade To Black error"]).
Proof.
  intros Hapi url c' w'. subst c' w'.
  rewrite (fade_to_black_run c w api Hapi). fold url. cbn [fst snd].
  split; [reflexivity |]. split.
  - intros Hok. rewrite Hok. destruct (ftb_active c); split; reflexivity.
  - intros Hoff Hfail. rewrite Hoff, Hfail. split; reflexivity.
Qed.

(** The branch that does neither: a failed switch-off leaves the flip in
    place, keeps the blink timer running and reports nothing. *)
Lemma fade_to_black_switch_off_failure (c : Controller) (w : World)
    (api : vMixAPI) :
  vmix_api c = Some api ->
  ftb_active c = true ->
  succeeded (answer w (command_url api "FadeToBlack" [])) = false ->
  fade_to_black (c, w) =
  (tt, (set_ftb_active false c, logged (command_url api "FadeToBlack" []) w)).
Proof.
  intros Hapi Hon Hfail.
  rewrite (fade_to_black_run c w api Hapi). cbv zeta. rewrite Hon, Hfail.
  reflexivity.
Qed.

(** C6. Connected, [remove_overlay] sends [OverlayInput1Out] ...
    [OverlayInput4Out], all four and in this order, whatever the mixer
    answers to each of them (an error status, or no answer at all); after
    it every layer's flag is [False], and it reports "All overlays
    removed". *)
Theorem remove_overlay_all_layers (c : Controller) (w : World) (api : vMixAPI) :
  vmix_api c = Some api ->
  let out (layer : nat) :=
    command_url api ("OverlayInput" +:+ pretty layer +:+ "Out") [] in
  let c' := fst (snd (remove_overlay (c, w))) in
  let w' := snd (snd (remove_overlay (c, w))) in
  sent w' = sent w ++ [out 1; out 2; out 3; out 4] /\
  (forall layer, 1 <= layer <= 4 -> active_overlays c' !! layer = Some false) /\
  (forall layer, ~ 1 <= layer <= 4 ->
   active_overlays c' !! layer = active_overlays c !! layer) /\
  ui c' = ui c ++ [UpdateAllStyles; ShowMessage "✖ All overlays removed"] /\
  active_input c' = active_input c /\
  preview_input c' = preview_input c /\
  ftb_active c' = ftb_active c /\
  vmix_api c' = vmix_api c.
Proof.
  intros Hapi out c' w'. subst c' w'.
  unfold remove_overlay. desktop_ui. step. rewrite Hapi. step.
  cbn [seq for_each]. step. cbn [fst snd].
  split; [| split; [| split; [| split]]].
  - unfold logged. cbn [sent]. rewrite <- !app_assoc. reflexivity.
  - intros layer Hl. cbn.
    assert (layer = 1 \/ layer = 2 \/ layer = 3 \/ layer = 4)
      as [-> | [-> | [-> | ->]]] by lia;
      repeat first [ rewrite lookup_insert_eq; reflexivity
                   | rewrite lookup_insert_ne by lia ].
  - intros layer Hl. cbn.
    rewrite !lookup_insert_ne by lia. reflexivity.
  - cbn. rewrite <- app_assoc. reflexivity.
  - cbn. repeat split; try reflexivity. exact Hapi.
Qed.

End DesktopDispatch.

Lemma quick_play_fallback_witness :
  (Desktop.vmix_api Sample.desktop_preview3 = Some Sample.api /\
   Py.truthy (Desktop.preview_input Sample.desktop_preview3) = true /\
   Api.succeeded (Http.answer (Sample.rejecting Sample.fade3_url)
                    Sample.fade3_url) = false /\
   Api.succeeded (Http.answer
                    (Http.logged Sample.fade3_url
                       (Sample.rejecting Sample.fade3_url))
                    Sample.cut3_url) = true) /\
  let s := snd (Desktop.quick_play
                  (Sample.desktop_preview3, Sample.rejecting Sample.fade3_url)) in
  Desktop.active_input (fst s) = Some "3" /\
  Http.sent (snd s) = [Sample.fade3_url; Sample.cut3_url] /\
  last (Desktop.ui (fst s)) =
  Some (Desktop.ShowMessage "✅ Cut transition to V3").
Proof.
  split; [repeat split; reflexivity |].
  destruct (proj2 (quick_play_fallback Sample.desktop_preview3
                     (Sample.rejecting Sample.fade3_url))
              Sample.api eq_refl eq_refl) as (_ & Hcut & _).
  cbv zeta in Hcut. rewrite (Hcut eq_refl eq_refl).
  repeat split; reflexivity.
Defined.

(** Without a preview nothing is sent. *)
Example quick_play_without_preview :
  let s := snd (Desktop.quick_play
                  (Desktop.set_preview_input None Sample.desktop_on_air,
                   Sample.steady Sample.body_a)) in
  Http.sent (snd s) = [] /\
  Desktop.ui (fst s) =
  [Desktop.ShowMessage "❌ Select input in preview first!"] /\
  Desktop.active_input (fst s) = Some "1".
Proof. repeat split. Qed.

(** A failed switch-on is reverted and reported. *)
Example fade_to_black_failed_switch_on_is_reverted :
  let s := snd (Desktop.fade_to_black (Sample.desktop_on_air, Sample.offline)) in
  Desktop.ftb_active Sample.desktop_on_air = false /\
  Api.succeeded (Http.answer Sample.offline Sample.ftb_url) = false /\
  Desktop.ftb_active (fst s) = false /\
  Desktop.ui (fst s) =
  [Desktop.FtbStyle true; Desktop.FtbStyle false;
   Desktop.ShowMessage "❌ Fade To Black error"].
Proof. repeat split. Qed.

(** C5. A failed switch-off is neither reverted nor reported.  From
    [ftb_active = false], the first [fade_to_black] succeeds and the second
    one's command fails: the second call flips the flag from on to off,
    does not flip it back (so the controller shows fade to black off while
    the mixer, which never got the command, is still faded, and the blink
    timer keeps running), and reports nothing at all: the interface trace
    after the second call is the one after the first. *)
Theorem fade_to_black_failed_switch_off_is_silent :
  let s0 := (Sample.desktop_on_air, Sample.failing_after 1) in
  let s1 := snd (Desktop.fade_to_black s0) in
  let s2 := snd (Desktop.fade_to_black s1) in
  Desktop.ftb_active (fst s0) = false /\
  Api.succeeded (Http.answer (snd s0) Sample.ftb_url) = true /\
  Api.succeeded (Http.answer (snd s1) Sample.ftb_url) = false /\
  Http.sent (snd s2) = [Sample.ftb_url; Sample.ftb_url] /\
  Desktop.ftb_active (fst s1) = true /\
  Desktop.ftb_active (fst s2) = false /\
  Desktop.ftb_timer (fst s2) = true /\
  Desktop.ui (fst s2) = Desktop.ui (fst s1) /\
  Desktop.ui (fst s2) =
  [Desktop.FtbStyle true; Desktop.ShowMessage "🌙 Fade To Black enabled"].
Proof. repeat split. Qed.

(** The mobile [fade_to_black] never looks at the result of its command:
    with no mixer answering, the flag is flipped and stays flipped. *)
Example mobile_fade_to_black_keeps_the_flip :
  let s := snd (Mobile.fade_to_black (Sample.mobile_on_air, Sample.offline)) in
  Mobile.ftb_active (fst s) = true /\
  Mobile.status_text (fst s) = "FTB: ON".
Proof. repeat split. Qed.

Lemma remove_overlay_all_layers_witness :
  Desktop.vmix_api Sample.desktop_overlays = Some Sample.api /\
  let w := Sample.rejecting Sample.overlay3_out_url in
  let s := snd (Desktop.remove_overlay (Sample.desktop_overlays, w)) in
  Api.succeeded (Http.answer w Sample.overlay3_out_url) = false /\
  Desktop.active_overlays Sample.desktop_overlays !! 3 = Some true /\
  (forall layer, 1 <= layer <= 4 ->
   Desktop.active_overlays (fst s) !! layer = Some false) /\
  Http.sent (snd s) =
  ["http://10.0.0.5:8088/api/?Function=OverlayInput1Out";
   "http://10.0.0.5:8088/api/?Function=OverlayInput2Out";
   "http://10.0.0.5:8088/api/?Function=OverlayInput3Out";
   "http://10.0.0.5:8088/api/?Function=OverlayInput4Out"] /\
  last (Desktop.ui (fst s)) =
  Some (Desktop.ShowMessage "✖ All overlays removed").
Proof.
  split; [reflexivity |].
  destruct (remove_overlay_all_layers Sample.desktop_overlays
              (Sample.rejecting Sample.overlay3_out_url) Sample.api eq_refl)
    as (Hsent & Hoff & _ & Hui & _).
  cbv zeta. split; [reflexivity |]. split; [reflexivity |].
  split; [exact Hoff |]. split; [rewrite Hsent; reflexivity |].
  rewrite Hui. reflexivity.
Defined.

(** The same when the mixer does not answer at all. *)
Example remove_overlay_offline :
  let s := snd (Desktop.remove_overlay (Sample.desktop_overlays, Sample.offline)) in
  length (Http.sent (snd s)) = 4 /\
  Desktop.active_overlays (fst s) !! 1 = Some false /\
  Desktop.active_overlays (fst s) !! 3 = Some false /\
  last (Desktop.ui (fst s)) =
  Some (Desktop.ShowMessage "✖ All overlays removed").
Proof. repeat split. Qed.

(** ** Loading the inputs and connecting, desktop *)

Section DesktopConnect.
Import Http Api Desktop.
Variable fromstring : string -> option Xml.Element.

Lemma step_get_inputs {B : Type} (api : vMixAPI)
    (k : list InputData -> Prog Sys B) (c : Controller) (w : World) :
  bind (call (get_inputs fromstring api)) k (c, w) =
  k (decode_inputs fromstring (xml_data_of (answer w (state_url api))))
    (c, logged (state_url api) w).
Proof.
  unfold bind, call. cbn [fst snd]. rewrite desktop_get_inputs_run.
  reflexivity.
Qed.

Lemma bind_run {S A B : Type} (m : Prog S A) (k : A -> Prog S B)
    (s s' : S) (a : A) :
  m s = (a, s') -> bind m k s = k a s'.
Proof. intros H. unfold bind. rewrite H. reflexivity. Qed.

(** The tile-building loop of [load_inputs]. *)
Lemma load_inputs_loop {B : Type} (inputs : list InputData) :
  forall (k : unit -> Prog Sys B) (c : Controller) (w : World),
  bind (for_each inputs (fun d =>
          bind (self active_input) (fun a =>
          bind (self preview_input) (fun p =>
          bind (ui_call (AddTile d (bool_decide (a = number d))
                                   (bool_decide (p = number d))))
               (fun _ => assign (fun c =>
                  set_input_tiles
                    (Py.dict_set (number d) d (input_tiles c)) c))))))
       k (c, w) =
  k tt (set_ui (ui c ++ add_tiles (active_input c) (preview_input c) inputs)
          (set_input_tiles (tiles_of inputs (input_tiles c)) c), w).
Proof.
  induction inputs as [| d rest IH]; intros k c w.
  - cbn [for_each]. step. f_equal. destruct c; cbn.
    rewrite app_nil_r. reflexivity.
  - cbn [for_each]. step. desktop_ui. step. desktop_ui. rewrite IH.
    f_equal. destruct c; cbn. rewrite <- app_assoc. reflexivity.
Qed.

(** [load_inputs] on a connected controller, as one equation. *)
Lemma load_inputs_run (c : Controller) (w : World) (api : vMixAPI) :
  vmix_api c = Some api ->
  let url := state_url api in
  let inputs := decode_inputs fromstring (xml_data_of (answer w url)) in
  let w1 := logged url w in
  let a := top_level_text fromstring "active" (xml_data_of (answer w1 url)) in
  let w2 := logged url w1 in
  let p := top_level_text fromstring "preview" (xml_data_of (answer w2 url)) in
  let w3 := logged url w2 in
  load_inputs fromstring (c, w) =
  match inputs with
  | [] =>
      (tt, (set_ui (ui c ++ [ClearTiles;
                             ShowMessage "❌ Failed to get inputs list"])
              (set_input_tiles [] c), w1))
  | _ :: _ =>
      (tt, (set_ui (ui c ++ [ClearTiles] ++ add_tiles a p inputs ++
                      [UpdateInputInfo a p;
                       ShowMessage ("✅ Loaded inputs: "
                                    +:+ pretty (length inputs));
                       TilesContainerUpdate])
              (set_input_tiles (tiles_of inputs [])
                 (set_preview_input p (set_active_input a c))), w3))
  end.
Proof.
  intros Hapi url inputs w1 a w2 p w3.
  unfold load_inputs. desktop_ui. step. rewrite Hapi. step.
  rewrite step_get_inputs. fold url inputs w1. cbv beta.
  destruct inputs as [| d rest] eqn:E.
  - step. destruct c; cbn. rewrite <- app_assoc. reflexivity.
  - rewrite <- E. step. fold url a w2 p w3. desktop_ui.
    rewrite load_inputs_loop. step. rewrite E.
    destruct c; cbn. rewrite <- !app_assoc. reflexivity.
Qed.


(** [load_inputs] leaves the connection, the fade-to-black state and the
    overlay flags alone, and sends one or three requests. *)
Lemma load_inputs_keeps_flags (c : Controller) (w : World) (api : vMixAPI) :
  vmix_api c = Some api ->
  let c' := fst (snd (load_inputs fromstring (c, w))) in
  let w' := snd (snd (load_inputs fromstring (c, w))) in
  let url := state_url api in
  vmix_api c' = vmix_api c /\
  ftb_active c' = ftb_active c /\
  ftb_timer c' = ftb_timer c /\
  active_overlays c' = active_overlays c /\
  (sent w' = sent w ++ [url] \/ sent w' = sent w ++ [url; url; url]) /\
  exists tail, ui c' = ui c ++ tail.
Proof.
  intros Hapi c' w' url. subst c' w'.
  rewrite (load_inputs_run c w api Hapi). fold url.
  destruct (decode_inputs fromstring (xml_data_of (answer w url)))
    as [| d rest].
  - cbn. repeat split; eauto.
  - cbn. repeat split; eauto.
    right. rewrite <- !app_assoc. reflexivity.
Qed.

Lemma truthy_str_nonempty (s : string) : s <> "" -> Py.truthy_str s = true.
Proof. destruct s; [congruence | reflexivity]. Qed.

(** A connect that gets no snapshot, as one equation. *)
Lemma connect_failure_run (c : Controller) (w : World) (ip port : string) :
  ip <> "" ->
  Py.truthy (xml_data_of (answer w (state_url (new_vMixAPI ip port)))) = false ->
  connect_to_vmix fromstring ip port (c, w) =
  (tt, (set_ui (ui c ++
                  [ShowMessage ("Connecting to " +:+ ip +:+ ":" +:+ port
                                +:+ "...");
                   ConnectEnabled false;
                   ShowMessage "❌ Failed to connect to vMix";
                   ConnectText "Connect";
                   ConnectEnabled true])
          (set_vmix_api None c),
        logged (state_url (new_vMixAPI ip port)) w)).
Proof.
  intros Hip Hx. unfold connect_to_vmix.
  rewrite (truthy_str_nonempty ip Hip). cbn [negb].
  desktop_ui. step. rewrite Hx. step.
  destruct c; cbn. rewrite <- !app_assoc. reflexivity.
Qed.

(** A connect that gets a snapshot: the handle is set, [load_inputs] runs,
    and the connect button is enabled again. *)
Lemma connect_success_run (c : Controller) (w : World) (ip port : string) :
  ip <> "" ->
  Py.truthy (xml_data_of (answer w (state_url (new_vMixAPI ip port)))) = true ->
  let api := new_vMixAPI ip port in
  let c1 :=
    set_ui (ui c ++
              [ShowMessage ("Connecting to " +:+ ip +:+ ":" +:+ port +:+ "...");
               ConnectEnabled false;
               ShowMessage ("✅ Connected to vMix " +:+ ip +:+ ":" +:+ port);
               ConnectText "Connected";
               ControlsEnabled])
      (set_vmix_api (Some api) c) in
  let loaded := snd (load_inputs fromstring (c1, logged (state_url api) w)) in
  connect_to_vmix fromstring ip port (c, w) =
  (tt, (set_ui (ui (fst loaded) ++ [ConnectEnabled true]) (fst loaded),
        snd loaded)).
Proof.
  intros Hip Hx api c1 loaded. unfold connect_to_vmix.
  rewrite (truthy_str_nonempty ip Hip). cbn [negb].
  desktop_ui. step. rewrite Hx. step. fold api. subst loaded.
  match goal with
  | |- context [bind (load_inputs fromstring) ?k (?c0, ?w0)] =>
      replace c0 with c1
        by (subst c1; destruct c; cbn; rewrite <- !app_assoc; reflexivity);
      change w0 with (logged (state_url api) w);
      destruct (load_inputs fromstring (c1, logged (state_url api) w))
        as [[] [c2 w2]] eqn:Hrun;
      rewrite (bind_run _ k _ _ _ Hrun)
  end.
  step. reflexivity.
Qed.

(** C7, as the code has it. [connect_to_vmix] with an empty address
    reports "Enter vMix IP address!" and sends nothing.  Otherwise it tries
    one [get_xml_data].  If that fails, the API handle is reset to [None]
    and "Failed to connect to vMix" is reported, and nothing else is sent.
    If it succeeds, the handle stays set, the controls are enabled and
    [load_inputs] runs on the next answers of the mixer: when the second
    answer lists no input, the tiles are cleared, "Failed to get inputs
    list" is reported and the stored pair is kept, after two requests in
    all; otherwise the tiles are those of the second answer,
    [active_input] is read from the third and [preview_input] from the
    fourth.  In every case of a success [ftb_active], the blink timer and
    the overlay flags are left as they were.  Nothing is raised. *)
Theorem connect_to_vmix_outcomes (c : Controller) (w : World) (ip port : string) :
  let api := new_vMixAPI ip port in
  let url := state_url api in
  let c' := fst (snd (connect_to_vmix fromstring ip port (c, w))) in
  let w' := snd (snd (connect_to_vmix fromstring ip port (c, w))) in
  (ip = "" ->
   connect_to_vmix fromstring ip port (c, w) =
   (tt, (set_ui (ui c ++ [ShowMessage "❌ Enter vMix IP address!"]) c, w))) /\
  (ip <> "" -> Py.truthy (xml_data_of (answer w url)) = false ->
   connect_to_vmix fromstring ip port (c, w) =
   (tt, (set_ui (ui c ++
                   [ShowMessage ("Connecting to " +:+ ip +:+ ":" +:+ port
                                 +:+ "...");
                    ConnectEnabled false;
                    ShowMessage "❌ Failed to connect to vMix";
                    ConnectText "Connect";
                    ConnectEnabled true])
           (set_vmix_api None c), logged url w))) /\
  (ip <> "" -> Py.truthy (xml_data_of (answer w url)) = true ->
   let greeting :=
     [ShowMessage ("Connecting to " +:+ ip +:+ ":" +:+ port +:+ "...");
      ConnectEnabled false;
      ShowMessage ("✅ Connected to vMix " +:+ ip +:+ ":" +:+ port);
      ConnectText "Connected";
      ControlsEnabled] in
   let w1 := logged url w in
   let inputs := decode_inputs fromstring (xml_data_of (answer w1 url)) in
   let w2 := logged url w1 in
   let a := top_level_text fromstring "active" (xml_data_of (answer w2 url)) in
   let w3 := logged url w2 in
   let p := top_level_text fromstring "preview" (xml_data_of (answer w3 url)) in
   let w4 := logged url w3 in
   (inputs = [] ->
    connect_to_vmix fromstring ip port (c, w) =
    (tt, (set_ui (ui c ++ greeting ++
                    [ClearTiles;
                     ShowMessage "❌ Failed to get inputs list";
                     ConnectEnabled true])
            (set_input_tiles [] (set_vmix_api (Some api) c)), w2))) /\
   (inputs <> [] ->
    connect_to_vmix fromstring ip port (c, w) =
    (tt, (set_ui (ui c ++ greeting ++ [ClearTiles] ++ add_tiles a p inputs ++
                    [UpdateInputInfo a p;
                     ShowMessage ("✅ Loaded inputs: "
                                  +:+ pretty (length inputs));
                     TilesContainerUpdate;
                     ConnectEnabled true])
            (set_input_tiles (tiles_of inputs [])
               (set_preview_input p
                  (set_active_input a (set_vmix_api (Some api) c)))),
          w4))) /\
   vmix_api c' = Some api /\
   ftb_active c' = ftb_active c /\
   ftb_timer c' = ftb_timer c /\
   active_overlays c' = active_overlays c /\
   (sent w' = sent w ++ [url; url] \/
    sent w' = sent w ++ [url; url; url; url])).
Proof.
  intros api url c' w'. subst c' w'.
  split; [| split].
  - intros ->. unfold connect_to_vmix. desktop_ui. cbn [Py.truthy_str negb].
    step. reflexivity.
  - intros Hne Hx. exact (connect_failure_run c w ip port Hne Hx).
  - intros Hne Hx greeting w1 inputs w2 a w3 p w4.
    pose proof (connect_success_run c w ip port Hne Hx) as Hrun.
    cbv zeta in Hrun. fold api url w1 in Hrun.
    rewrite (load_inputs_run _ _ api) in Hrun by reflexivity.
    fold url in Hrun. fold inputs w2 in Hrun. fold a w3 in Hrun.
    fold p w4 in Hrun.
    assert (Hempty : inputs = [] ->
      connect_to_vmix fromstring ip port (c, w) =
      (tt, (set_ui (ui c ++ greeting ++
                      [ClearTiles;
                       ShowMessage "❌ Failed to get inputs list";
                       ConnectEnabled true])
              (set_input_tiles [] (set_vmix_api (Some api) c)), w2))).
    { intros Hin. rewrite Hrun, Hin. cbn [fst snd]. subst greeting.
      destruct c; cbn. rewrite <- !app_assoc. reflexivity. }
    assert (Hfull : inputs <> [] ->
      connect_to_vmix fromstring ip port (c, w) =
      (tt, (set_ui (ui c ++ greeting ++ [ClearTiles] ++ add_tiles a p inputs
                      ++ [UpdateInputInfo a p;
                          ShowMessage ("✅ Loaded inputs: "
                                       +:+ pretty (length inputs));
                          TilesContainerUpdate;
                          ConnectEnabled true])
              (set_input_tiles (tiles_of inputs [])
                 (set_preview_input p
                    (set_active_input a (set_vmix_api (Some api) c)))),
            w4))).
    { intros Hin. rewrite Hrun.
      destruct inputs as [| d rest] eqn:E; [congruence |].
      cbn [fst snd]. subst greeting.
      destruct c. repeat (cbn; rewrite <- app_assoc). reflexivity. }
    split; [exact Hempty |]. split; [exact Hfull |].
    destruct inputs as [| d rest] eqn:E.
    + rewrite (Hempty eq_refl). cbn [fst snd].
      repeat split; try reflexivity. left.
      unfold w2, w1, logged. cbn [sent].
      rewrite <- !app_assoc. reflexivity.
    + rewrite Hfull by discriminate. cbn [fst snd].
      repeat split; try reflexivity. right.
      unfold w4, w3, w2, w1, logged. cbn [sent].
      rewrite <- !app_assoc. reflexivity.
Qed.

End DesktopConnect.



(** The mobile [load_inputs] fetches three times as well. *)
Example mobile_reload_mixes_snapshots :
  let s := snd (Mobile.load_inputs Sample.fromstring
                  (Sample.mobile_on_air, Sample.changing)) in
  map Mobile.number (Mobile.inputs (fst s)) = [Some "1"; Some "2"] /\
  Mobile.active_input (fst s) = Some "7" /\
  Mobile.preview_input (fst s) = Some "7" /\
  length (Http.sent (snd s)) = 3.
Proof. repeat split. Qed.

Lemma connect_to_vmix_outcomes_witness :
  let s := snd (Desktop.connect_to_vmix Sample.fromstring "10.0.0.5" "8088"
                  (Desktop.init, Sample.offline)) in
  let s' := snd (Desktop.connect_to_vmix Sample.fromstring "10.0.0.5" "8088"
                   (Desktop.init, Sample.steady Sample.body_a)) in
  ("10.0.0.5" <> "" /\
   Py.truthy (Api.xml_data_of
                (Http.answer Sample.offline (Api.state_url Sample.api))) = false /\
   Py.truthy (Api.xml_data_of
                (Http.answer (Sample.steady Sample.body_a)
                   (Api.state_url Sample.api))) = true /\
   Desktop.decode_inputs Sample.fromstring
     (Api.xml_data_of
        (Http.answer (Http.logged (Api.state_url Sample.api)
                        (Sample.steady Sample.body_a))
           (Api.state_url Sample.api))) <> []) /\
  (Desktop.vmix_api (fst s) = None /\
   length (Http.sent (snd s)) = 1 /\
   In (Desktop.ShowMessage "❌ Failed to connect to vMix") (Desktop.ui (fst s))) /\
  (Desktop.vmix_api (fst s') = Some Sample.api /\
   map fst (Desktop.input_tiles (fst s')) = [Some "1"; Some "2"] /\
   Desktop.active_input (fst s') = Some "1" /\
   Desktop.preview_input (fst s') = Some "2" /\
   length (Http.sent (snd s')) = 4 /\
   Desktop.ftb_active (fst s') = false /\
   Desktop.active_overlays (fst s') = Desktop.active_overlays Desktop.init).
Proof.
  intros s s'.
  assert (Hip : "10.0.0.5" <> "") by discriminate.
  assert (Hin : Desktop.decode_inputs Sample.fromstring
                  (Api.xml_data_of
                     (Http.answer (Http.logged (Api.state_url Sample.api)
                                     (Sample.steady Sample.body_a))
                        (Api.state_url Sample.api))) <> [])
    by (vm_compute; discriminate).
  split; [split; [exact Hip | split; [reflexivity
                                     | split; [reflexivity | exact Hin]]] |].
  destruct (connect_to_vmix_outcomes Sample.fromstring Desktop.init
              Sample.offline "10.0.0.5" "8088") as (_ & Hfail & _).
  destruct (connect_to_vmix_outcomes Sample.fromstring Desktop.init
              (Sample.steady Sample.body_a) "10.0.0.5" "8088")
    as (_ & _ & Hok).
  split.
  - subst s. rewrite (Hfail Hip eq_refl). cbn.
    split; [reflexivity |]. split; [reflexivity |]. tauto.
  - destruct (Hok Hip eq_refl) as (_ & Hfull & Hv & Hf & _ & Ho & _).
    subst s'. rewrite (Hfull Hin).
    vm_compute. repeat split.
Defined.

(** The claim of C7 fails on a second connect, and where it tells
    failures apart.  A first connect succeeds (and fetches four times, not
    once), the operator switches fade to black on and shows overlay 2, and
    connects again: the connect succeeds and both flags are still on.
    And a connect to a mixer that refuses the connection, to one that lets
    the request time out and to one that answers 404 end in one and the
    same state, with the one message "Failed to connect to vMix". *)
Lemma connect_resets_nothing_and_reports_one_failure :
  let s1 := snd (Desktop.connect_to_vmix Sample.fromstring "10.0.0.5" "8088"
                   (Desktop.init, Sample.steady Sample.body_a)) in
  let s2 := snd (Desktop.fade_to_black s1) in
  let s3 := snd (Desktop.overlay_selected 2 s2) in
  let s4 := snd (Desktop.connect_to_vmix Sample.fromstring "10.0.0.5" "8088" s3) in
  let refused :=
    fst (snd (Desktop.connect_to_vmix Sample.fromstring "10.0.0.5" "8088"
                (Desktop.init, Sample.offline))) in
  let timed_out :=
    fst (snd (Desktop.connect_to_vmix Sample.fromstring "10.0.0.5" "8088"
                (Desktop.init, Cases.timing_out))) in
  let not_found :=
    fst (snd (Desktop.connect_to_vmix Sample.fromstring "10.0.0.5" "8088"
                (Desktop.init, Cases.not_found))) in
  (Desktop.vmix_api (fst s1) = Some Sample.api /\
   length (Http.sent (snd s1)) = 4 /\
   Desktop.ftb_active (fst s3) = true /\
   Desktop.active_overlays (fst s3) !! 2 = Some true /\
   Desktop.vmix_api (fst s4) = Some Sample.api /\
   In (Desktop.ShowMessage "✅ Connected to vMix 10.0.0.5:8088")
      (skipn (length (Desktop.ui (fst s3))) (Desktop.ui (fst s4))) /\
   Desktop.ftb_active (fst s4) = true /\
   Desktop.active_overlays (fst s4) !! 2 = Some true) /\
  (Http.answer Sample.offline (Api.state_url Sample.api)
     = Http.Raises Http.ConnectionError /\
   Http.answer Cases.timing_out (Api.state_url Sample.api)
     = Http.Raises Http.Timeout /\
   Http.answer Cases.not_found (Api.state_url Sample.api)
     = Http.Response 404 "" /\
   timed_out = refused /\
   not_found = refused /\
   Desktop.vmix_api refused = None /\
   Desktop.ui refused =
   [Desktop.ShowMessage "Connecting to 10.0.0.5:8088...";
    Desktop.ConnectEnabled false;
    Desktop.ShowMessage "❌ Failed to connect to vMix";
    Desktop.ConnectText "Connect";
    Desktop.ConnectEnabled true]).
Proof.
  vm_compute. repeat split. do 2 right. left. reflexivity.
Qed.

(** The mobile [connect_to_vmix] keeps the API handle it has just made
    even when the connection fails. *)
Example mobile_failed_connect_keeps_handle :
  let s := snd (Mobile.connect_to_vmix Sample.fromstring "10.0.0.5" "8088"
                  (Mobile.init, Sample.offline)) in
  Mobile.connected (fst s) = false /\
  Mobile.status_text (fst s) = "Failed to connect" /\
  Mobile.vmix_api (fst s) = Some Sample.mobile_api.
Proof. repeat split. Qed.

(** ** The mobile controller *)

Ltac mobile_ui := unfold Mobile.update_info_labels, Mobile.ui_call.

Lemma bind_unit_ret {S : Type} (m : Prog S unit) (s : S) :
  bind m (fun _ => ret tt) s = m s.
Proof. unfold bind, ret. destruct (m s) as [[] s']. reflexivity. Qed.

Section MobileFacts.
Import Http Api Mobile.
Variable fromstring : string -> option Xml.Element.

Lemma step_mobile_get_inputs {B : Type} (api : vMixAPI)
    (k : list InputData -> Prog Sys B) (c : Controller) (w : World) :
  bind (call (get_inputs fromstring api)) k (c, w) =
  k (decode_inputs fromstring (xml_data_of (answer w (state_url api))))
    (c, logged (state_url api) w).
Proof.
  unfold bind, call. cbn [fst snd]. rewrite mobile_get_inputs_run. reflexivity.
Qed.

Lemma mobile_load_inputs_loop {B : Type} (l : list InputData) :
  forall (k : unit -> Prog Sys B) (c : Controller) (w : World),
  bind (for_each l (fun d =>
          bind (self active_input) (fun a =>
          bind (self preview_input) (fun p =>
          ui_call (AddWidget d
                     (if bool_decide (a = number d) then Red
                      else if bool_decide (p = number d) then Blue
                      else Grey))))))
       k (c, w) =
  k tt (set_ui (ui c ++ add_widgets (active_input c) (preview_input c) l) c, w).
Proof.
  induction l as [| d rest IH]; intros k c w.
  - cbn [for_each]. step. f_equal. destruct c; cbn.
    rewrite app_nil_r. reflexivity.
  - cbn [for_each]. step. mobile_ui. step. mobile_ui. rewrite IH.
    f_equal. destruct c; cbn. rewrite <- app_assoc. reflexivity.
Qed.

Lemma mobile_update_info_labels_run {B : Type}
    (k : unit -> Prog Sys B) (c : Controller) (w : World) :
  bind update_info_labels k (c, w) =
  k tt (set_ui (ui c ++ info_labels (active_input c) (preview_input c)) c, w).
Proof.
  unfold update_info_labels, info_labels. step.
  destruct (Py.truthy (preview_input c)); mobile_ui; step;
    cbn [set_ui active_input];
    destruct (Py.truthy (active_input c)); step;
    f_equal; destruct c; cbn; rewrite <- app_assoc; reflexivity.
Qed.

(** The mobile [load_inputs]: three fetches in a row, one for the inputs,
    one for [active] and one for [preview], then the buttons are rebuilt. *)
Lemma mobile_load_inputs_run {B : Type} (k : unit -> Prog Sys B)
    (c : Controller) (w : World) (api : vMixAPI) :
  vmix_api c = Some api ->
  let url := state_url api in
  let l := decode_inputs fromstring (xml_data_of (answer w url)) in
  let w1 := logged url w in
  let a := top_level_text fromstring "active" (xml_data_of (answer w1 url)) in
  let w2 := logged url w1 in
  let p := top_level_text fromstring "preview" (xml_data_of (answer w2 url)) in
  let w3 := logged url w2 in
  bind (load_inputs fromstring) k (c, w) =
  k tt (set_ui (ui c ++ [ClearWidgets] ++ add_widgets a p l ++ info_labels a p)
          (set_preview_input p (set_active_input a (set_inputs l c))), w3).
Proof.
  intros Hapi url l w1 a w2 p w3.
  unfold load_inputs. step. rewrite Hapi. step.
  rewrite step_mobile_get_inputs. fold url l w1. cbv beta. step.
  fold url a w2 p w3. mobile_ui. step. cbn [set_ui inputs set_preview_input
    set_active_input set_inputs].
  rewrite mobile_load_inputs_loop, mobile_update_info_labels_run.
  f_equal. destruct c; cbn. rewrite <- !app_assoc. reflexivity.
Qed.

(** The mobile tick compares like the desktop one; on a difference it
    stores the fetched pair and reloads everything once. *)
Lemma mobile_tick_compares_and_reloads (c : Controller) (w : World) (api : vMixAPI) :
  vmix_api c = Some api ->
  let new_active := fst (get_active_input fromstring api w) in
  let w1 := snd (get_active_input fromstring api w) in
  let new_preview := fst (get_preview_input fromstring api w1) in
  let w2 := snd (get_preview_input fromstring api w1) in
  (new_active = active_input c /\ new_preview = preview_input c ->
   update_states fromstring (c, w) = (tt, (c, w2))) /\
  (new_active <> active_input c \/ new_preview <> preview_input c ->
   update_states fromstring (c, w) =
   load_inputs fromstring
     (set_preview_input new_preview (set_active_input new_active c), w2)).
Proof.
  intros Hapi new_active w1 new_preview w2.
  subst new_active w1 new_preview w2.
  rewrite get_active_input_run. cbn [fst snd].
  rewrite get_preview_input_run. cbn [fst snd].
  unfold update_states. step. rewrite Hapi. step.
  split.
  - intros [Ha Hp]. rewrite Ha, Hp.
    rewrite !bool_decide_eq_false_2 by (intros H; apply H; reflexivity).
    reflexivity.
  - intros Hne.
    match goal with
    | |- (if ?b then _ else _) _ = _ => replace b with true
    end.
    + step. reflexivity.
    + symmetry. apply orb_true_iff.
      destruct Hne as [H | H]; [left | right];
        apply bool_decide_eq_true_2; exact H.
Qed.

(** The mobile [quick_play], connected and with a preview selected: one
    [Fade], whose result is not looked at, and a reload.  No [Cut] is
    ever sent and no failure is ever reported. *)
Lemma mobile_quick_play_run (c : Controller) (w : World) (api : vMixAPI) :
  vmix_api c = Some api -> Py.truthy (preview_input c) = true ->
  let fade := command_url api "Fade" [("Input", Py.fmt (preview_input c))] in
  let url := state_url api in
  let c' := fst (snd (quick_play fromstring (c, w))) in
  let w' := snd (snd (quick_play fromstring (c, w))) in
  sent w' = sent w ++ [fade; url; url; url] /\
  status_text c' = "Transition to V" +:+ Py.fmt (preview_input c') /\
  active_input c' =
  top_level_text fromstring "active"
    (xml_data_of (answer (logged url (logged fade w)) url)).
Proof.
  intros Hapi Hp fade url c' w'. subst c' w'.
  unfold quick_play. step. rewrite Hapi, Hp. step. fold fade.
  rewrite (mobile_load_inputs_run _ _ _ api) by exact Hapi.
  fold url. step. cbn.
  split; [rewrite <- !app_assoc; reflexivity |]. split; reflexivity.
Qed.

(** The mobile [fade_to_black]: the flip always stands. *)
Lemma mobile_fade_to_black_run (c : Controller) (w : World) (api : vMixAPI) :
  vmix_api c = Some api ->
  let url := command_url api "FadeToBlack" [] in
  fade_to_black (c, w) =
  (tt, (set_status_text
          ("FTB: " +:+ (if negb (ftb_active c) then "ON" else "OFF"))
          (set_ftb_active (negb (ftb_active c)) c),
        logged url w)).
Proof.
  intros Hapi url. unfold fade_to_black. step. rewrite Hapi. step.
  reflexivity.
Qed.

(** The mobile poll tick of a connected controller, as one equation:
    two fetches to compare with, and on a difference three more, from
    which everything that is stored and shown is taken. *)
Lemma mobile_update_states_run (c : Controller) (w : World) (api : vMixAPI) :
  vmix_api c = Some api ->
  let url := state_url api in
  let new_active :=
    top_level_text fromstring "active" (xml_data_of (answer w url)) in
  let w1 := logged url w in
  let new_preview :=
    top_level_text fromstring "preview" (xml_data_of (answer w1 url)) in
  let w2 := logged url w1 in
  let l := decode_inputs fromstring (xml_data_of (answer w2 url)) in
  let w3 := logged url w2 in
  let a := top_level_text fromstring "active" (xml_data_of (answer w3 url)) in
  let w4 := logged url w3 in
  let p := top_level_text fromstring "preview" (xml_data_of (answer w4 url)) in
  update_states fromstring (c, w) =
  (tt, if bool_decide (new_active <> active_input c)
          || bool_decide (new_preview <> preview_input c)
       then (set_ui (ui c ++ [ClearWidgets] ++ add_widgets a p l
                       ++ info_labels a p)
               (set_preview_input p (set_active_input a (set_inputs l c))),
             logged url w4)
       else (c, w2)).
Proof.
  intros Hapi url new_active w1 new_preview w2 l w3 a w4 p.
  unfold update_states. step. rewrite Hapi. step.
  fold url new_active w1 new_preview w2.
  destruct (bool_decide (new_active <> active_input c)
            || bool_decide (new_preview <> preview_input c));
    [| reflexivity].
  step. rewrite <- bind_unit_ret.
  rewrite (mobile_load_inputs_run _ _ _ api) by exact Hapi.
  fold url l w3 a w4 p. unfold ret. destruct c; reflexivity.
Qed.

End MobileFacts.

(** ** The poll tick of both controllers *)

Section PollTick.
Import Http Api.
Variable fromstring : string -> option Xml.Element.

(** C2, as the code has it. One poll tick of a connected controller
    fetches [new_active] and then [new_preview].  If both equal the stored
    values, either controller is left exactly as it was: nothing is
    repainted and the state is not replaced.  If either differs, the
    desktop controller replaces the stored pair by the fetched one and
    notifies the interface exactly once, by one [update_tile_styles] and
    one [update_input_info] that carry the new values.  The mobile
    controller reloads instead: it fetches three more times, and the
    inputs, the pair it stores and the buttons and labels it rebuilds are
    those of these three later fetches. *)
Theorem update_states_diff (c : Desktop.Controller) (m : Mobile.Controller)
    (w : World) (api : vMixAPI) :
  let new_active := fst (get_active_input fromstring api w) in
  let w1 := snd (get_active_input fromstring api w) in
  let new_preview := fst (get_preview_input fromstring api w1) in
  let w2 := snd (get_preview_input fromstring api w1) in
  (Desktop.vmix_api c = Some api ->
   (new_active = Desktop.active_input c /\
    new_preview = Desktop.preview_input c ->
    Desktop.update_states fromstring (c, w) = (tt, (c, w2))) /\
   (new_active <> Desktop.active_input c \/
    new_preview <> Desktop.preview_input c ->
    Desktop.update_states fromstring (c, w) =
    (tt, (Desktop.set_ui
            (Desktop.ui c ++
               [Desktop.UpdateTileStyles new_active new_preview;
                Desktop.UpdateInputInfo new_active new_preview])
            (Desktop.set_preview_input new_preview
               (Desktop.set_active_input new_active c)),
          w2)))) /\
  (Mobile.vmix_api m = Some api ->
   (new_active = Mobile.active_input m /\
    new_preview = Mobile.preview_input m ->
    Mobile.update_states fromstring (m, w) = (tt, (m, w2))) /\
   (new_active <> Mobile.active_input m \/
    new_preview <> Mobile.preview_input m ->
    let url := state_url api in
    let l := Mobile.decode_inputs fromstring (xml_data_of (answer w2 url)) in
    let w3 := logged url w2 in
    let a := top_level_text fromstring "active" (xml_data_of (answer w3 url)) in
    let w4 := logged url w3 in
    let p := top_level_text fromstring "preview" (xml_data_of (answer w4 url)) in
    Mobile.update_states fromstring (m, w) =
    (tt, (Mobile.set_ui
            (Mobile.ui m ++ [Mobile.ClearWidgets] ++ Mobile.add_widgets a p l
               ++ Mobile.info_labels a p)
            (Mobile.set_preview_input p
               (Mobile.set_active_input a (Mobile.set_inputs l m))),
          logged url w4)))).
Proof.
  intros new_active w1 new_preview w2.
  subst new_active w1 new_preview w2.
  rewrite get_active_input_run. cbn [fst snd].
  rewrite get_preview_input_run. cbn [fst snd].
  assert (Hsame : forall (x y x' y' : option string),
            x = x' /\ y = y' ->
            bool_decide (x <> x') || bool_decide (y <> y') = false).
  { intros x y x' y' [-> ->].
    rewrite !bool_decide_eq_false_2 by (intros H; apply H; reflexivity).
    reflexivity. }
  assert (Hdiff : forall (x y x' y' : option string),
            x <> x' \/ y <> y' ->
            bool_decide (x <> x') || bool_decide (y <> y') = true).
  { intros x y x' y' Hne. apply orb_true_iff.
    destruct Hne as [H | H]; [left | right];
      apply bool_decide_eq_true_2; exact H. }
  split.
  - intros Hapi. rewrite (update_states_run fromstring c w api Hapi).
    split; intros H.
    + rewrite (Hsame _ _ _ _ H). reflexivity.
    + rewrite (Hdiff _ _ _ _ H). reflexivity.
  - intros Hapi. rewrite (mobile_update_states_run fromstring m w api Hapi).
    split; intros H.
    + rewrite (Hsame _ _ _ _ H). reflexivity.
    + rewrite (Hdiff _ _ _ _ H). reflexivity.
Qed.

End PollTick.

Lemma update_states_diff_witness :
  (Desktop.vmix_api Sample.desktop_on_air = Some Sample.api /\
   Mobile.vmix_api Sample.mobile_on_air = Some Sample.mobile_api /\
   fst (Api.get_active_input Sample.fromstring Sample.api
          (Sample.steady Sample.body_b))
   <> Desktop.active_input Sample.desktop_on_air /\
   fst (Api.get_active_input Sample.fromstring Sample.mobile_api
          (Sample.steady Sample.body_b))
   <> Mobile.active_input Sample.mobile_on_air) /\
  Desktop.update_states Sample.fromstring
    (Sample.desktop_on_air, Sample.steady Sample.body_b) =
  (tt, (Desktop.set_ui [Desktop.UpdateTileStyles (Some "7") (Some "7");
                        Desktop.UpdateInputInfo (Some "7") (Some "7")]
          (Desktop.set_preview_input (Some "7")
             (Desktop.set_active_input (Some "7") Sample.desktop_on_air)),
        Http.logged (Api.state_url Sample.api)
          (Http.logged (Api.state_url Sample.api)
             (Sample.steady Sample.body_b)))) /\
  (let s := snd (Mobile.update_states Sample.fromstring
                   (Sample.mobile_on_air, Sample.steady Sample.body_b)) in
   Mobile.active_input (fst s) = Some "7" /\
   Mobile.preview_input (fst s) = Some "7" /\
   map Mobile.number (Mobile.inputs (fst s)) = [Some "7"] /\
   length (Http.sent (snd s)) = 5).
Proof.
  assert (Hne : fst (Api.get_active_input Sample.fromstring Sample.api
                       (Sample.steady Sample.body_b))
                <> Desktop.active_input Sample.desktop_on_air)
    by (cbv; discriminate).
  assert (Hne' : fst (Api.get_active_input Sample.fromstring
                        Sample.mobile_api (Sample.steady Sample.body_b))
                 <> Mobile.active_input Sample.mobile_on_air)
    by (cbv; discriminate).
  destruct (update_states_diff Sample.fromstring Sample.desktop_on_air
              Sample.mobile_on_air (Sample.steady Sample.body_b) Sample.api)
    as [Hdesktop _].
  destruct (update_states_diff Sample.fromstring Sample.desktop_on_air
              Sample.mobile_on_air (Sample.steady Sample.body_b)
              Sample.mobile_api) as [_ Hmobile].
  split; [split; [reflexivity | split; [reflexivity | split; assumption]] |].
  split.
  - rewrite (proj2 (Hdesktop eq_refl) (or_introl Hne)). reflexivity.
  - cbv zeta. rewrite (proj2 (Hmobile eq_refl) (or_introl Hne')).
    vm_compute. repeat split.
Defined.

(** The claim of C2 fails on the mobile tick.  The controller holds
    active 1 and preview 2; the mixer shows 7 and 7 for the two requests
    that the tick compares with, and 1 and 2 again afterwards.  The tick
    sees the difference, but what it stores and shows in the end comes
    from the three requests of its reload: the stored pair is 1 and 2 as
    before, and the labels say V2 and V1, not the new values. *)
Lemma mobile_tick_shows_the_refetched_pair :
  let s := snd (Mobile.update_states Sample.fromstring
                  (Sample.mobile_on_air, Cases.flapping)) in
  (Mobile.active_input Sample.mobile_on_air = Some "1" /\
   Mobile.preview_input Sample.mobile_on_air = Some "2") /\
  (fst (Api.get_active_input Sample.fromstring Sample.mobile_api
          Cases.flapping) = Some "7" /\
   fst (Api.get_preview_input Sample.fromstring Sample.mobile_api
          (snd (Api.get_active_input Sample.fromstring Sample.mobile_api
                  Cases.flapping))) = Some "7") /\
  length (Http.sent (snd s)) = 5 /\
  Mobile.active_input (fst s) = Some "1" /\
  Mobile.preview_input (fst s) = Some "2" /\
  skipn (length (Mobile.ui (fst s)) - 2) (Mobile.ui (fst s)) =
  [Mobile.PreviewLabel "V2"; Mobile.ActiveLabel "V1"].
Proof. vm_compute. repeat split. Qed.

(** The claim of C3 fails on the mobile controller.  With input 3 in
    preview and a mixer that rejects [Fade] for it, the mobile
    [quick_play] sends that [Fade] and then only reloads: no [Cut] is
    sent, and the status line reports a transition. *)
Lemma mobile_quick_play_has_no_fallback :
  let w := Sample.rejecting Sample.fade3_url in
  let s := snd (Mobile.quick_play Sample.fromstring (Sample.mobile_preview3, w)) in
  Mobile.vmix_api Sample.mobile_preview3 = Some Sample.mobile_api /\
  Mobile.preview_input Sample.mobile_preview3 = Some "3" /\
  Api.succeeded (Http.answer w Sample.fade3_url) = false /\
  Api.succeeded (Http.answer (Http.logged Sample.fade3_url w) Sample.cut3_url)
    = true /\
  Http.sent (snd s) =
  [Sample.fade3_url; "http://10.0.0.5:8088/api/"; "http://10.0.0.5:8088/api/";
   "http://10.0.0.5:8088/api/"] /\
  ~ In Sample.cut3_url (Http.sent (snd s)) /\
  Mobile.active_input (fst s) = Some "1" /\
  Mobile.status_text (fst s) = "Transition to V2".
Proof.
  vm_compute. repeat split. intros [H | [H | [H | [H | []]]]]; discriminate.
Qed.

(** ** The flow layout *)

Section FlowFacts.
Import Flow.
Local Open Scope Z_scope.

Lemma wrap_int_id (z : Z) : representable z -> wrap_int z = z.
Proof.
  unfold representable, INT_MIN, INT_MAX, wrap_int. intros Hz.
  rewrite Z.mod_small; lia.
Qed.

Lemma in_int_representable (z : Z) : in_int z = true <-> representable z.
Proof.
  unfold in_int, representable. rewrite andb_true_iff, Z.leb_le, Z.leb_le.
  reflexivity.
Qed.











End FlowFacts.

Section FlowLayout.
Import Flow.
Local Open Scope Z_scope.







(** X5. An item added with [addItem] is the last one: [itemAt] finds it
    at the old [count], and [takeAt] there gives it back and leaves the
    layout as it was before the item was added. *)
Theorem flow_take_after_add (item : Item) (l : Layout) :
  count (addItem item l) = count l + 1 /\
  itemAt (count l) (addItem item l) = Some item /\
  takeAt (count l) (addItem item l) = (Some item, l).
Proof.
  unfold count, itemAt, takeAt, addItem. cbn [itemList set_itemList].
  rewrite length_app. cbn [length].
  assert (Hin : (0 <=? Z.of_nat (length (itemList l)))
                && (Z.of_nat (length (itemList l))
                    <? Z.of_nat (length (itemList l) + 1)) = true).
  { apply andb_true_iff. split; [apply Z.leb_le | apply Z.ltb_lt]; lia. }
  rewrite Hin, Nat2Z.id.
  split; [lia |].
  assert (Hlook : (itemList l ++ [item]) !! length (itemList l) = Some item).
  { rewrite lookup_app_r by lia. rewrite Nat.sub_diag. reflexivity. }
  rewrite Hlook. split; [reflexivity |].
  rewrite take_app_length. rewrite drop_ge by (rewrite length_app; cbn; lia).
  rewrite app_nil_r. destruct l; reflexivity.
Qed.

(** X6. [itemAt] and [takeAt] guard their index.  Outside of
    [0 <= index < count] (a negative index included) both return [None]
    and [takeAt] removes nothing.  Inside, [takeAt] returns the item that
    [itemAt] finds there, the count drops by one and the other items keep
    their order. *)
Theorem flow_index_bounds (index : Z) (l : Layout) :
  (~ 0 <= index < count l ->
   itemAt index l = None /\ takeAt index l = (None, l)) /\
  (0 <= index < count l ->
   exists item,
     itemAt index l = Some item /\
     fst (takeAt index l) = Some item /\
     count (snd (takeAt index l)) = count l - 1 /\
     itemList l =
       take (Z.to_nat index) (itemList (snd (takeAt index l)))
       ++ item :: drop (Z.to_nat index) (itemList (snd (takeAt index l)))).
Proof.
  unfold count, itemAt, takeAt. split.
  - intros Hout.
    assert (Hb : (0 <=? index) && (index <? Z.of_nat (length (itemList l)))
                 = false).
    { apply andb_false_iff.
      destruct (Z.leb_spec 0 index); [right | left; reflexivity].
      apply Z.ltb_ge. lia. }
    rewrite Hb. split; reflexivity.
  - intros Hin.
    assert (Hb : (0 <=? index) && (index <? Z.of_nat (length (itemList l)))
                 = true).
    { apply andb_true_iff. split; [apply Z.leb_le | apply Z.ltb_lt]; lia. }
    rewrite Hb.
    destruct (lookup_lt_is_Some_2 (itemList l) (Z.to_nat index)) as [item Hitem];
      [lia |].
    exists item. rewrite Hitem. cbn [fst snd set_itemList itemList].
    split; [reflexivity |]. split; [reflexivity |].
    assert (Hlen : (Z.to_nat index < length (itemList l))%nat) by lia.
    split.
    + rewrite length_app, length_take, length_drop. lia.
    + rewrite take_app_le by (rewrite length_take; lia).
      rewrite take_take, Nat.min_id.
      rewrite drop_app_ge by (rewrite length_take; lia).
      rewrite length_take, Nat.min_l by lia.
      rewrite Nat.sub_diag, drop_0.
      rewrite <- (take_drop_middle _ _ _ Hitem) at 1. reflexivity.
Qed.

Lemma minimum_fold_bounds (items : list Item) : forall (size : QSize),
  let result :=
    fold_left (fun size item => expandedTo size (minimum_size item))
      items size in
  (width size <= width result /\ height size <= height result) /\
  Forall (fun item =>
            width (minimum_size item) <= width result /\
            height (minimum_size item) <= height result) items.
Proof.
  induction items as [| item rest IH]; intros size; cbn.
  - split; [lia | constructor].
  - destruct (IH (expandedTo size (minimum_size item))) as [[Hw Hh] Hall].
    cbn in *. split; [lia |]. constructor; [lia | exact Hall].
Qed.

Lemma minimum_fold_upper (items : list Item) (mw mh : Z) :
  forall (size : QSize),
  width size <= mw -> height size <= mh ->
  Forall (fun item =>
            width (minimum_size item) <= mw /\
            height (minimum_size item) <= mh) items ->
  let result :=
    fold_left (fun size item => expandedTo size (minimum_size item))
      items size in
  width result <= mw /\ height result <= mh.
Proof.
  induction items as [| item rest IH]; intros size Hw Hh Hall; cbn.
  - split; assumption.
  - inversion Hall as [| ? ? [Hiw Hih] Hrest]; subst.
    apply IH; [cbn; lia | cbn; lia | exact Hrest].
Qed.

(** X7. [minimumSize] raises [OverflowError] when twice the left or twice
    the top margin is no C [int].  Otherwise, when these doubled margins
    are above [INT_MIN] and no item's minimum size plus them passes
    [INT_MAX], [minimumSize] returns a size that is large enough for every
    item: at least the item's minimum width plus twice the left margin,
    and at least its minimum height plus twice the top margin.  For a
    layout without items that size is [(2 * left - 1, 2 * top - 1)]. *)
Theorem flow_minimumSize_bounds (l : Layout) :
  (~ representable (2 * left (margins l)) \/
   ~ representable (2 * top (margins l)) ->
   minimumSize l = inl OverflowError) /\
  (INT_MIN < 2 * left (margins l) <= INT_MAX ->
   INT_MIN < 2 * top (margins l) <= INT_MAX ->
   Forall (fun item =>
             width (minimum_size item) + 2 * left (margins l) <= INT_MAX /\
             height (minimum_size item) + 2 * top (margins l) <= INT_MAX)
     (itemList l) ->
   exists size,
     minimumSize l = inr size /\
     Forall (fun item =>
               width (minimum_size item) + 2 * left (margins l)
                 <= width size /\
               height (minimum_size item) + 2 * top (margins l)
                 <= height size) (itemList l) /\
     (itemList l = [] ->
      size = {| width := 2 * left (margins l) - 1;
                height := 2 * top (margins l) - 1 |})).
Proof.
  unfold minimumSize. split.
  - intros Hout.
    destruct (in_int (2 * left (margins l))) eqn:El;
      destruct (in_int (2 * top (margins l))) eqn:Et; try reflexivity.
    apply in_int_representable in El, Et. destruct Hout; contradiction.
  - intros Hl Ht Hitems.
    assert (El : in_int (2 * left (margins l)) = true)
      by (apply in_int_representable; unfold representable; lia).
    assert (Et : in_int (2 * top (margins l)) = true)
      by (apply in_int_representable; unfold representable; lia).
    rewrite El, Et. cbn [andb].
    destruct (minimum_fold_bounds (itemList l) {| width := -1; height := -1 |})
      as [[Hlw Hlh] Hall].
    destruct (minimum_fold_upper (itemList l)
                (INT_MAX - 2 * left (margins l))
                (INT_MAX - 2 * top (margins l))
                {| width := -1; height := -1 |}) as [Huw Huh].
    { cbn. lia. }
    { cbn. lia. }
    { eapply Forall_impl; [exact Hitems |]. cbn. intros item [Hw Hh]. lia. }
    cbn [width height] in Hlw, Hlh.
    eexists. split; [reflexivity |].
    cbn [width height].
    rewrite !wrap_int_id by (unfold representable; lia).
    split.
    + eapply Forall_impl; [exact Hall |]. cbn. intros item [Hw Hh]. lia.
    + intros Hnil. revert Hlw Hlh Huw Huh. rewrite Hnil. cbn.
      intros. f_equal; lia.
Qed.

End FlowLayout.





(** Where the right edge of the rectangle is no C [int], [rect.right()]
    is negative, every item but the first of a row is wrapped, and the
    layout pass and [heightForWidth] for the same width disagree. *)
Example flow_right_edge_wraps :
  Flow.right Cases.far_area = (-2147483597)%Z /\
  map Flow.geometry
    (Flow.itemList (Flow.setGeometry Cases.far_area Cases.small_pair)) =
  [ Flow.MkRect 2147483600 0 40 10; Flow.MkRect 2147483600 10 40 10 ] /\
  fst (Flow.doLayout Cases.far_area false Cases.small_pair) = 20%Z /\
  Flow.heightForWidth 100 Cases.small_pair = inr (10%Z, Cases.small_pair) /\
  Flow.heightForWidth (2 ^ 31) Cases.small_pair = inl Flow.OverflowError.
Proof. vm_compute. repeat split. Qed.




Lemma flow_index_bounds_witness :
  (~ (0 <= -1 < Flow.count Cases.tiles)%Z /\
   (0 <= 3 < Flow.count Cases.tiles)%Z) /\
  Flow.takeAt (-1) Cases.tiles = (None, Cases.tiles) /\
  exists item,
    Flow.itemAt 3 Cases.tiles = Some item /\
    fst (Flow.takeAt 3 Cases.tiles) = Some item /\
    Flow.count (snd (Flow.takeAt 3 Cases.tiles)) = 3%Z.
Proof.
  assert (Hout : ~ (0 <= -1 < Flow.count Cases.tiles)%Z)
    by (unfold Flow.count; cbn; lia).
  assert (Hin : (0 <= 3 < Flow.count Cases.tiles)%Z)
    by (unfold Flow.count; cbn; lia).
  split; [split; assumption |].
  split.
  - exact (proj2 (proj1 (flow_index_bounds (-1) Cases.tiles) Hout)).
  - destruct (proj2 (flow_index_bounds 3 Cases.tiles) Hin)
      as (item & Hat & Htake & Hcount & _).
    exists item. split; [exact Hat |]. split; [exact Htake | exact Hcount].
Defined.

Lemma flow_minimumSize_bounds_witness :
  ((Flow.INT_MIN < 2 * Flow.left (Flow.margins Cases.tiles) <= Flow.INT_MAX)%Z /\
   (Flow.INT_MIN < 2 * Flow.top (Flow.margins Cases.tiles) <= Flow.INT_MAX)%Z /\
   Forall (fun item =>
             (Flow.width (Flow.minimum_size item)
              + 2 * Flow.left (Flow.margins Cases.tiles) <= Flow.INT_MAX /\
              Flow.height (Flow.minimum_size item)
              + 2 * Flow.top (Flow.margins Cases.tiles) <= Flow.INT_MAX)%Z)
     (Flow.itemList Cases.tiles)) /\
  Flow.minimumSize Cases.tiles = inr (Flow.MkSize 200 140) /\
  exists size,
    Flow.minimumSize Cases.tiles = inr size /\
    Forall (fun item =>
              (Flow.width (Flow.minimum_size item)
               + 2 * Flow.left (Flow.margins Cases.tiles) <= Flow.width size /\
               Flow.height (Flow.minimum_size item)
               + 2 * Flow.top (Flow.margins Cases.tiles) <= Flow.height size)%Z)
      (Flow.itemList Cases.tiles).
Proof.
  assert (Hl : (Flow.INT_MIN < 2 * Flow.left (Flow.margins Cases.tiles)
                <= Flow.INT_MAX)%Z)
    by (unfold Flow.INT_MIN, Flow.INT_MAX; cbn; lia).
  assert (Ht : (Flow.INT_MIN < 2 * Flow.top (Flow.margins Cases.tiles)
                <= Flow.INT_MAX)%Z)
    by (unfold Flow.INT_MIN, Flow.INT_MAX; cbn; lia).
  assert (Hitems :
    Forall (fun item =>
              (Flow.width (Flow.minimum_size item)
               + 2 * Flow.left (Flow.margins Cases.tiles) <= Flow.INT_MAX /\
               Flow.height (Flow.minimum_size item)
               + 2 * Flow.top (Flow.margins Cases.tiles) <= Flow.INT_MAX)%Z)
      (Flow.itemList Cases.tiles))
    by (repeat constructor; unfold Flow.INT_MAX; cbn; lia).
  split; [split; [exact Hl | split; [exact Ht | exact Hitems]] |].
  split; [reflexivity |].
  destruct (proj2 (flow_minimumSize_bounds Cases.tiles) Hl Ht Hitems)
    as (size & Hsize & Hall & _).
  exists size. split; [exact Hsize | exact Hall].
Defined.

(** ** Loading and saving the settings *)

Section SettingsFiles.
Import Settings SettingsIO.
Variable json_dump : list (string * Json) -> string.
Variable json_load : string -> option Json.

(** What a settings object looks like after it went through the file:
    without "remember" the credentials are blank. *)
Lemma load_data_of_save_data (s s0 : Settings) :
  load_data (save_data s) s0 =
  if truthy (remember_creds s) then s
  else with_credentials (JStr "") (JStr "") s.
Proof.
  unfold load_data, save_data, SettingsIO.get. cbn.
  destruct (truthy (remember_creds s)); destruct s; reflexivity.
Qed.





(** X11. After "Save" the typed password is in the settings object for
    the rest of the session in any case.  After a restart (a new
    [Settings()] and [load]) the typed address and port are back, with the
    typed credentials if "remember" was checked, and with empty
    credentials if it was not. *)
Theorem credentials_after_restart (ip_text port_text login_text pass_text : string)
    (remember : bool) (s : Settings) (fs : gmap string string) :
  let saved :=
    save_settings json_dump ip_text port_text login_text pass_text
      remember s fs in
  let s' := fst (fst saved) in
  let restarted := fst (load json_dump json_load Settings.init (snd (fst saved))) in
  json_load (json_dump (save_data s')) = Some (JDict (save_data s')) ->
  password s' = JStr pass_text /\
  exists s'', restarted = inr s'' /\
    ip s'' = JStr ip_text /\ port s'' = JStr port_text /\
    login s'' = JStr (if remember then login_text else "") /\
    password s'' = JStr (if remember then pass_text else "") /\
    remember_creds s'' = JBool remember.
Proof.
  intros saved s' restarted Hrt. subst restarted saved s'.
  unfold save_settings in *. cbn [fst snd] in *.
  split; [reflexivity |].
  unfold load, save. rewrite lookup_insert_eq, Hrt.
  rewrite load_data_of_save_data. cbn [remember_creds truthy].
  eexists. split; [reflexivity |].
  destruct remember; repeat split; reflexivity.
Qed.

End SettingsFiles.

Section MobileSettingsFiles.
Import Settings.
Variable json_dump : list (string * Json) -> string.
Variable json_load : string -> option Json.

(** X12. The mobile settings go through their own file,
    [vmix_settings_mobile.json]: if the reader gives back the object that
    was written, [load] after [save] restores address and port, and the
    desktop settings file is left as it is. *)
Theorem mobile_settings_round_trip (s s0 : MobileSettings.Settings)
    (fs : gmap string string) :
  json_load (json_dump (MobileSettings.save_data s))
  = Some (JDict (MobileSettings.save_data s)) ->
  MobileSettings.load json_dump json_load s0
    (MobileSettings.save json_dump s fs) =
  (inr s, MobileSettings.save json_dump s fs) /\
  MobileSettings.save json_dump s fs !! "vmix_settings.json" =
  fs !! "vmix_settings.json".
Proof.
  intros Hrt. split.
  - unfold MobileSettings.load, MobileSettings.save.
    rewrite lookup_insert_eq, Hrt.
    unfold MobileSettings.save_data, SettingsIO.get. cbn.
    destruct s; reflexivity.
  - unfold MobileSettings.save. apply lookup_insert_ne. discriminate.
Qed.

End MobileSettingsFiles.




Lemma credentials_after_restart_witness :
  Cases.json_load (Sample.json_dump (Settings.save_data Cases.saved_forgetting))
  = Some (Settings.JDict (Settings.save_data Cases.saved_forgetting)) /\
  exists s,
    fst (SettingsIO.load Sample.json_dump Cases.json_load Settings.init
           (snd (fst (SettingsIO.save_settings Sample.json_dump
                        "10.0.0.5" "8088" "operator" "hunter2" false
                        Settings.init ∅)))) = inr s /\
    Settings.login s = Settings.JStr "" /\
    Settings.password s = Settings.JStr "".
Proof.
  split; [reflexivity |].
  destruct (credentials_after_restart Sample.json_dump Cases.json_load
              "10.0.0.5" "8088" "operator" "hunter2" false Settings.init ∅
              eq_refl) as (_ & s & Hs & _ & _ & Hl & Hp & _).
  exists s. split; [exact Hs |]. split; [exact Hl | exact Hp].
Defined.

Lemma mobile_settings_round_trip_witness :
  Cases.json_load
    (Sample.json_dump (MobileSettings.save_data MobileSettings.init))
  = Some (Settings.JDict (MobileSettings.save_data MobileSettings.init)) /\
  MobileSettings.load Sample.json_dump Cases.json_load MobileSettings.init
    (MobileSettings.save Sample.json_dump MobileSettings.init ∅) =
  (inr MobileSettings.init,
   MobileSettings.save Sample.json_dump MobileSettings.init ∅).
Proof.
  split; [reflexivity |].
  exact (proj1 (mobile_settings_round_trip Sample.json_dump
                  Cases.json_load MobileSettings.init MobileSettings.init ∅
                  eq_refl)).
Defined.

(** ** The command encoder and the getters *)

Section ClientFacts.
Import Http Api.
Variable fromstring : string -> option Xml.Element.

Lemma string_app_assoc (a b c : string) :
  (a +:+ b) +:+ c = a +:+ (b +:+ c).
Proof.
  induction a as [| ch a IH]; [reflexivity |].
  change (String ch ((a +:+ b) +:+ c) = String ch (a +:+ (b +:+ c))).
  f_equal. exact IH.
Qed.

Lemma string_app_empty_r (a : string) : a +:+ "" = a.
Proof.
  induction a as [| ch a IH]; [reflexivity |].
  change (String ch (a +:+ "") = String ch a).
  f_equal. exact IH.
Qed.

Lemma pair_is_truthy (k rest : string) :
  Py.truthy_str (k +:+ "=" +:+ rest) = true.
Proof. destruct k; reflexivity. Qed.

Lemma join_pairs (kv : string * string) (rest : list (string * string)) :
  Py.join "&" (map (fun kv => fst kv +:+ "=" +:+ snd kv) (kv :: rest)) =
  fst kv +:+ "=" +:+ snd kv +:+ Shape.query rest.
Proof.
  revert kv. induction rest as [| kv' rest IH]; intros kv.
  - cbn. rewrite string_app_empty_r. reflexivity.
  - change (Py.join "&" (map (fun kv => fst kv +:+ "=" +:+ snd kv)
                           (kv :: kv' :: rest)))
      with ((fst kv +:+ "=" +:+ snd kv) +:+ "&" +:+
            Py.join "&" (map (fun kv => fst kv +:+ "=" +:+ snd kv)
                           (kv' :: rest))).
    rewrite IH. cbn [Shape.query].
    rewrite !string_app_assoc. reflexivity.
Qed.

(** X13. The URL of a command is the base URL, [/?Function=] and the
    command name, followed by one [&key=value] for each parameter in the
    order given; without parameters nothing follows the command name. *)
Theorem command_url_shape (api : vMixAPI) (command : string)
    (params : list (string * string)) :
  command_url api command params =
  base_url api +:+ "/?Function=" +:+ command +:+ Shape.query params.
Proof.
  unfold command_url. destruct params as [| kv rest].
  - cbn. rewrite ?string_app_assoc, string_app_empty_r. reflexivity.
  - rewrite join_pairs, pair_is_truthy.
    cbn [Shape.query]. rewrite !string_app_assoc. reflexivity.
Qed.

Lemma decode_inputs_failure (r : Result) :
  Shape.failed fromstring r ->
  Desktop.decode_inputs fromstring (xml_data_of r) = [] /\
  Mobile.decode_inputs fromstring (xml_data_of r) = [].
Proof.
  intros [H | [H | (body & H & Hp)]]; rewrite H; cbn;
    try (split; reflexivity).
  rewrite Hp. destruct (Py.truthy_str body); split; reflexivity.
Qed.

(** X14. The getters fail softly and alike.  When the request for the
    state raises, returns a status other than 200, returns an empty body
    or returns a body that does not parse, [get_inputs] returns the empty
    list and [get_active_input] and [get_preview_input] return [None];
    each of them has made exactly one request, and none of them raises. *)
Theorem getters_fail_softly (api : vMixAPI) (w : World) :
  Shape.failed fromstring (answer w (state_url api)) ->
  Desktop.get_inputs fromstring api w = ([], logged (state_url api) w) /\
  Mobile.get_inputs fromstring api w = ([], logged (state_url api) w) /\
  get_active_input fromstring api w = (None, logged (state_url api) w) /\
  get_preview_input fromstring api w = (None, logged (state_url api) w).
Proof.
  intros Hfail.
  rewrite desktop_get_inputs_run, mobile_get_inputs_run,
    get_active_input_run, get_preview_input_run.
  destruct (decode_inputs_failure _ Hfail) as [-> ->].
  rewrite !(top_level_text_failure fromstring _ _ Hfail).
  repeat split.
Qed.

End ClientFacts.

Lemma getters_fail_softly_witness :
  Shape.failed Sample.fromstring
    (Http.answer (Sample.steady "<vmix><inputs>") (Api.state_url Sample.api)) /\
  Desktop.get_inputs Sample.fromstring Sample.api (Sample.steady "<vmix><inputs>")
  = ([], Http.logged (Api.state_url Sample.api) (Sample.steady "<vmix><inputs>")).
Proof.
  assert (Hfail : Shape.failed Sample.fromstring
                    (Http.answer (Sample.steady "<vmix><inputs>")
                       (Api.state_url Sample.api))).
  { right. right. exists "<vmix><inputs>". split; reflexivity. }
  split; [exact Hfail |].
  exact (proj1 (getters_fail_softly Sample.fromstring Sample.api
                  (Sample.steady "<vmix><inputs>") Hfail)).
Defined.

(** ** More of the desktop dispatcher *)

Section DesktopDispatchMore.
Import Http Api Desktop DesktopMore.
Variable fromstring : string -> option Xml.Element.

Lemma same_state_set_ui (c : Controller) (trace : list UiCall) :
  same_state c (set_ui trace c).
Proof. repeat split. Qed.

(** X15. A controller that is not connected never talks to the network:
    [load_inputs], [on_tile_clicked], [quick_play], [fade_to_black],
    [overlay_selected], [remove_overlay] and the poll tick send nothing
    and leave the whole protocol state as it is, and [send_command]
    returns [False] without sending. *)
Theorem not_connected_sends_nothing (c : Controller) (w : World)
    (input_number : string) (layer : nat) command params :
  vmix_api c = None ->
  Forall (fun method : Prog Sys unit =>
            snd (snd (method (c, w))) = w /\
            same_state c (fst (snd (method (c, w)))))
    [ load_inputs fromstring; on_tile_clicked input_number; quick_play;
      fade_to_black; overlay_selected layer; remove_overlay;
      update_states fromstring ] /\
  DesktopMore.send_command command params (c, w) = (false, (c, w)).
Proof.
  intros Hapi. split.
  - repeat constructor;
      unfold load_inputs, on_tile_clicked, quick_play, fade_to_black,
        overlay_selected, remove_overlay, update_states;
      desktop_ui; step; rewrite Hapi; step;
      try (destruct (Py.truthy (preview_input c)); step);
      cbn [fst snd]; try reflexivity; try exact Hapi.
  - unfold DesktopMore.send_command. step. rewrite Hapi. reflexivity.
Qed.

(** [on_tile_clicked] on a connected controller, as one equation. *)
Lemma on_tile_clicked_run (c : Controller) (w : World) (api : vMixAPI)
    (n : string) :
  vmix_api c = Some api ->
  let url := command_url api "PreviewInput" [("Input", n)] in
  on_tile_clicked n (c, w) =
  (tt, (if succeeded (answer w url)
        then set_ui (ui c ++ [UpdateTileStyles (active_input c) (Some n);
                              UpdateInputInfo (active_input c) (Some n);
                              QuickPlayEnabled;
                              ShowMessage ("📺 Set to preview: V" +:+ n)])
               (set_preview_input (Some n) c)
        else set_ui (ui c ++ [ShowMessage "❌ Preview set error"]) c,
        logged url w)).
Proof.
  intros Hapi url. unfold on_tile_clicked. desktop_ui. step. rewrite Hapi.
  step. fold url. destruct (succeeded (answer w url)); step.
  - destruct c; cbn. rewrite <- !app_assoc. reflexivity.
  - reflexivity.
Qed.

(** X16. A click on a tile of a connected controller sends exactly one
    [PreviewInput] for the clicked input.  [preview_input] becomes the
    clicked input if the mixer answers with status 200 and stays as it
    was otherwise; the live input, the tiles, fade to black and the
    overlay flags are never touched. *)
Theorem on_tile_clicked_outcome (c : Controller) (w : World) (api : vMixAPI)
    (n : string) :
  vmix_api c = Some api ->
  let url := command_url api "PreviewInput" [("Input", n)] in
  let c' := fst (snd (on_tile_clicked n (c, w))) in
  let w' := snd (snd (on_tile_clicked n (c, w))) in
  sent w' = sent w ++ [url] /\
  preview_input c' =
    (if succeeded (answer w url) then Some n else preview_input c) /\
  same_state (set_preview_input (preview_input c') c) c'.
Proof.
  intros Hapi url c' w'. subst c' w'.
  rewrite (on_tile_clicked_run c w api n Hapi). fold url. cbn [fst snd].
  split; [reflexivity |].
  destruct (succeeded (answer w url)); cbn; repeat split.
Qed.

(** [quick_play] on a connected controller with a preview, as one
    equation. *)
Lemma quick_play_run (c : Controller) (w : World) (api : vMixAPI) :
  vmix_api c = Some api -> Py.truthy (preview_input c) = true ->
  let input := Py.fmt (preview_input c) in
  let fade := command_url api "Fade" [("Input", input)] in
  let cut := command_url api "Cut" [("Input", input)] in
  let repaint := [UpdateTileStyles (preview_input c) (preview_input c);
                  UpdateInputInfo (preview_input c) (preview_input c);
                  FlashButton] in
  quick_play (c, w) =
  (tt,
   if succeeded (answer w fade)
   then (set_ui (ui c ++ repaint ++
                   [ShowMessage ("🔄 Smooth transition to V" +:+ input)])
           (set_active_input (preview_input c) c), logged fade w)
   else if succeeded (answer (logged fade w) cut)
   then (set_ui (ui c ++ repaint ++
                   [ShowMessage ("✅ Cut transition to V" +:+ input)])
           (set_active_input (preview_input c) c),
         logged cut (logged fade w))
   else (set_ui (ui c ++ [ShowMessage "❌ Transition error"]) c,
         logged cut (logged fade w))).
Proof.
  intros Hapi Hp input fade cut repaint.
  unfold quick_play. desktop_ui. step. rewrite Hapi, Hp. step.
  fold input fade. destruct (succeeded (answer w fade)); step.
  - destruct c; cbn. rewrite <- !app_assoc. reflexivity.
  - fold cut. destruct (succeeded (answer (logged fade w) cut)); step.
    + destruct c; cbn. rewrite <- !app_assoc. reflexivity.
    + reflexivity.
Qed.

(** X17. The usual way to put an input on air: a click on its tile and
    then quick play.  When the mixer accepts the [PreviewInput] and the
    [Fade], the clicked input ends as both the preview and the live
    input, after exactly these two requests. *)
Theorem click_then_quick_play (c : Controller) (w : World) (api : vMixAPI)
    (n : string) :
  vmix_api c = Some api ->
  n <> "" ->
  let preview := command_url api "PreviewInput" [("Input", n)] in
  let fade := command_url api "Fade" [("Input", n)] in
  succeeded (answer w preview) = true ->
  succeeded (answer (logged preview w) fade) = true ->
  let s := snd (quick_play (snd (on_tile_clicked n (c, w)))) in
  preview_input (fst s) = Some n /\
  active_input (fst s) = Some n /\
  sent (snd s) = sent w ++ [preview; fade].
Proof.
  intros Hapi Hn preview fade Hpreview Hfade s. subst s.
  rewrite (on_tile_clicked_run c w api n Hapi). fold preview.
  rewrite Hpreview. cbn [snd].
  rewrite (quick_play_run _ _ api);
    [| exact Hapi | destruct n; [congruence | reflexivity]].
  cbn [preview_input set_ui set_preview_input Py.fmt]. fold fade.
  rewrite Hfade. cbn [fst snd].
  repeat split. unfold logged. cbn [sent].
  rewrite <- app_assoc. reflexivity.
Qed.

(** The pair a tick leaves in the controller is the pair it fetched, in
    both branches of the comparison. *)
Lemma update_states_stores_fetched (c : Controller) (w : World)
    (api : vMixAPI) :
  vmix_api c = Some api ->
  let c' := fst (snd (update_states fromstring (c, w))) in
  active_input c' = fst (get_active_input fromstring api w) /\
  preview_input c' =
    fst (get_preview_input fromstring api
           (snd (get_active_input fromstring api w))).
Proof.
  intros Hapi c'. subst c'.
  rewrite (update_states_run fromstring c w api Hapi).
  rewrite get_active_input_run. cbn [fst snd].
  rewrite get_preview_input_run. cbn [fst snd].
  destruct (bool_decide (_ <> active_input c)) eqn:E1;
    destruct (bool_decide (_ <> preview_input c)) eqn:E2;
    cbn [orb]; try (split; reflexivity).
  apply bool_decide_eq_false_1 in E1, E2.
  apply dec_stable in E1, E2. split; symmetry; assumption.
Qed.

(** X18. After every poll tick of a connected controller the stored
    pair is the pair that this tick fetched: whatever a command stored
    before, the last fetch wins. *)
Theorem last_fetch_wins (c : Controller) (w : World) (api : vMixAPI) :
  vmix_api c = Some api ->
  let c' := fst (snd (update_states fromstring (c, w))) in
  active_input c' = fst (get_active_input fromstring api w) /\
  preview_input c' =
    fst (get_preview_input fromstring api
           (snd (get_active_input fromstring api w))).
Proof. exact (update_states_stores_fetched c w api). Qed.

(** X19. Against a mixer that answers the two requests of the next
    tick as it answered those of this one, the next tick is silent: it
    leaves the controller, the trace of interface calls included, exactly
    as this tick left it. *)
Theorem steady_mixer_next_tick_is_silent (c : Controller) (w : World)
    (api : vMixAPI) :
  vmix_api c = Some api ->
  let url := state_url api in
  let w1 := logged url w in
  let w2 := logged url w1 in
  let w3 := logged url w2 in
  answer w2 url = answer w url ->
  answer w3 url = answer w1 url ->
  let s1 := snd (update_states fromstring (c, w)) in
  fst (snd (update_states fromstring s1)) = fst s1.
Proof.
  intros Hapi url w1 w2 w3 H2 H3 s1.
  pose proof (update_states_stores_fetched c w api Hapi) as [Ha Hp].
  pose proof (update_states_stays_connected fromstring c w) as Hconn.
  rewrite get_active_input_run in Ha, Hp. cbn [fst snd] in Ha, Hp.
  rewrite get_preview_input_run in Hp. cbn [fst snd] in Hp.
  assert (Hw : snd s1 = w2).
  { subst s1. rewrite (update_states_run fromstring c w api Hapi).
    reflexivity. }
  destruct s1 as [c1 wa] eqn:Es1. cbn [fst snd] in *. subst wa.
  assert (Hc1 : c1 = fst (snd (update_states fromstring (c, w))))
    by (subst s1; rewrite Es1; reflexivity).
  rewrite <- Hc1 in Ha, Hp, Hconn.
  rewrite (update_states_run fromstring c1 w2 api)
    by (rewrite Hconn; exact Hapi).
  cbn [fst snd]. fold url w1 w2 w3 in Ha, Hp |- *.
  fold w3. rewrite H2, H3, <- Ha, <- Hp.
  rewrite !bool_decide_eq_false_2 by (intros H; apply H; reflexivity).
  reflexivity.
Qed.

End DesktopDispatchMore.

Section DesktopOverlays.
Import Http Api Desktop DesktopMore.
Variable fromstring : string -> option Xml.Element.

(** [overlay_selected] on a connected controller with a preview, as one
    equation. *)
Lemma overlay_selected_run (c : Controller) (w : World) (api : vMixAPI)
    (layer : nat) :
  vmix_api c = Some api -> Py.truthy (preview_input c) = true ->
  let url := command_url api ("OverlayInput" +:+ pretty layer)
               [("Input", Py.fmt (preview_input c))] in
  overlay_selected layer (c, w) =
  (tt,
   (if succeeded (answer w url)
    then match active_overlays c !! layer with
         | Some flag =>
             set_ui (ui c ++ [UpdateAllStyles;
                              ShowMessage ("➕ Overlay on layer "
                                           +:+ pretty layer +:+ ": V"
                                           +:+ Py.fmt (preview_input c))])
               (set_active_overlays
                  (<[layer := negb flag]> (active_overlays c)) c)
         | None => set_ui (ui c ++ [ShowMessage "❌ Overlay error"]) c
         end
    else set_ui (ui c ++ [ShowMessage ("❌ Overlay on layer "
                                       +:+ pretty layer +:+ " error")]) c,
    logged url w)).
Proof.
  intros Hapi Hp url. unfold overlay_selected. desktop_ui. step.
  rewrite Hapi, Hp. step. fold url.
  destruct (succeeded (answer w url)); step; [| reflexivity].
  destruct (active_overlays c !! layer); step; [| reflexivity].
  destruct c; cbn. rewrite <- !app_assoc. reflexivity.
Qed.

(** X20. [overlay_selected] on a connected controller with a preview
    sends one [OverlayInput<layer>] for the preview input.  If the mixer
    accepts it, the flag of that layer is flipped and no other flag
    changes; if the mixer rejects it, or the layer has no flag (a
    [KeyError], which the method catches after the command was sent), no
    flag changes.  Two accepted calls for the same layer leave the flags
    as they were. *)
Theorem overlay_selected_flips_one_flag (c : Controller) (w : World)
    (api : vMixAPI) (layer : nat) :
  vmix_api c = Some api -> Py.truthy (preview_input c) = true ->
  let url := command_url api ("OverlayInput" +:+ pretty layer)
               [("Input", Py.fmt (preview_input c))] in
  let s1 := snd (overlay_selected layer (c, w)) in
  let s2 := snd (overlay_selected layer s1) in
  sent (snd s1) = sent w ++ [url] /\
  (forall flag, succeeded (answer w url) = true ->
     active_overlays c !! layer = Some flag ->
     active_overlays (fst s1) !! layer = Some (negb flag) /\
     (forall other, other <> layer ->
        active_overlays (fst s1) !! other = active_overlays c !! other)) /\
  (succeeded (answer w url) = false \/ active_overlays c !! layer = None ->
   active_overlays (fst s1) = active_overlays c) /\
  (succeeded (answer w url) = true ->
   succeeded (answer (logged url w) url) = true ->
   active_overlays (fst s2) = active_overlays c).
Proof.
  intros Hapi Hp url s1 s2.
  assert (Hrun := overlay_selected_run c w api layer Hapi Hp).
  cbv zeta in Hrun. fold url in Hrun.
  assert (Hs1 : s1 = snd (overlay_selected layer (c, w))) by reflexivity.
  rewrite Hrun in Hs1. cbn [snd] in Hs1.
  split; [rewrite Hs1; reflexivity |].
  split; [| split].
  - intros flag Hok Hflag. rewrite Hs1, Hok, Hflag. cbn.
    split; [apply lookup_insert_eq |].
    intros other Hne. apply lookup_insert_ne. congruence.
  - intros [Hfail | Hnone]; rewrite Hs1.
    + rewrite Hfail. reflexivity.
    + rewrite Hnone. destruct (succeeded (answer w url)); reflexivity.
  - intros Hok1 Hok2. subst s2. rewrite Hs1, Hok1.
    destruct (active_overlays c !! layer) as [flag |] eqn:Hflag.
    + rewrite (overlay_selected_run _ _ api layer) by (cbn; assumption).
      cbn [preview_input set_ui set_active_overlays active_overlays ui].
      fold url. rewrite Hok2, lookup_insert_eq. cbn [fst snd active_overlays
        set_ui set_active_overlays].
      rewrite insert_insert_eq, negb_involutive.
      apply insert_id. exact Hflag.
    + rewrite (overlay_selected_run _ _ api layer) by (cbn; assumption).
      cbn [preview_input set_ui set_active_overlays active_overlays ui].
      fold url. rewrite Hok2, Hflag. reflexivity.
Qed.

(** X21. Two [fade_to_black] calls in a row that the mixer both accepts
    bring [ftb_active] back to where it was and leave the blink timer
    running exactly when fade to black is on; two [FadeToBlack] commands
    were sent. *)
Theorem fade_to_black_twice (c : Controller) (w : World) (api : vMixAPI) :
  vmix_api c = Some api ->
  let url := command_url api "FadeToBlack" [] in
  succeeded (answer w url) = true ->
  succeeded (answer (logged url w) url) = true ->
  let s := snd (fade_to_black (snd (fade_to_black (c, w)))) in
  ftb_active (fst s) = ftb_active c /\
  ftb_timer (fst s) = ftb_active c /\
  sent (snd s) = sent w ++ [url; url].
Proof.
  intros Hapi url Hok1 Hok2 s. subst s.
  rewrite (fade_to_black_run c w api Hapi). fold url. rewrite Hok1.
  cbn [snd].
  destruct (ftb_active c) eqn:Hf;
    rewrite (fade_to_black_run _ _ api) by exact Hapi;
    fold url; cbn [ftb_active set_ui set_ftb_timer set_ftb_active];
    rewrite Hok2; cbn [fst snd ftb_active ftb_timer set_ui set_ftb_timer
      set_ftb_active];
    (repeat split; unfold logged; cbn [sent];
     rewrite <- app_assoc; reflexivity).
Qed.

(** X22. A production without inputs looks like a failure to
    [load_inputs].  When the snapshot is fetched and parses but lists no
    input, [load_inputs] reports "Failed to get inputs list" after this
    one request, removes all tiles and leaves [active_input] and
    [preview_input] as they were. *)
Theorem empty_production_is_reported_as_failure (c : Controller) (w : World)
    (api : vMixAPI) body root :
  vmix_api c = Some api ->
  answer w (state_url api) = Response 200 body ->
  Py.truthy_str body = true ->
  fromstring body = Some root ->
  Xml.findall ["inputs"; "input"] root = [] ->
  load_inputs fromstring (c, w) =
  (tt, (set_ui (ui c ++ [ClearTiles;
                         ShowMessage "❌ Failed to get inputs list"])
          (set_input_tiles [] c), logged (state_url api) w)).
Proof.
  intros Hapi Hr Hb Hp Hnone.
  rewrite (load_inputs_run fromstring c w api Hapi). rewrite Hr.
  cbn [xml_data_of].
  replace (bool_decide (200%Z = 200%Z)) with true by reflexivity.
  unfold decode_inputs. rewrite Hb, Hp, Hnone. reflexivity.
Qed.

Lemma dict_set_keys {V : Type} (k : option string) (v : V)
    (d : list (option string * V)) :
  map fst (Py.dict_set k v d) =
  if bool_decide (k ∈ map fst d) then map fst d else map fst d ++ [k].
Proof.
  induction d as [| [k' v'] rest IH]; [reflexivity |].
  cbn [Py.dict_set map fst]. destruct (decide (k = k')) as [-> | Hne].
  - rewrite bool_decide_eq_true_2 by (left). reflexivity.
  - cbn [map fst]. rewrite IH.
    destruct (bool_decide (k ∈ map fst rest)) eqn:E.
    + apply bool_decide_eq_true_1 in E.
      rewrite bool_decide_eq_true_2 by (right; exact E). reflexivity.
    + apply bool_decide_eq_false_1 in E.
      rewrite bool_decide_eq_false_2; [reflexivity |].
      intros Hin. apply elem_of_cons in Hin. destruct Hin; congruence.
Qed.

Lemma dict_set_nodup {V : Type} (k : option string) (v : V)
    (d : list (option string * V)) :
  NoDup (map fst d) -> NoDup (map fst (Py.dict_set k v d)).
Proof.
  intros Hd. rewrite dict_set_keys.
  destruct (bool_decide (k ∈ map fst d)) eqn:E; [exact Hd |].
  apply bool_decide_eq_false_1 in E.
  apply NoDup_app. split; [exact Hd |]. split.
  - intros x Hx Hin. apply list_elem_of_singleton in Hin. congruence.
  - apply NoDup_singleton.
Qed.

Lemma tiles_of_app_fresh (inputs : list InputData) :
  forall tiles,
  NoDup (map number inputs) ->
  (forall d, d ∈ inputs -> number d ∉ map fst tiles) ->
  tiles_of inputs tiles = tiles ++ map (fun d => (number d, d)) inputs.
Proof.
  induction inputs as [| d rest IH]; intros tiles Hnd Hfresh.
  - cbn. rewrite app_nil_r. reflexivity.
  - cbn [tiles_of fold_left map] in *. inversion Hnd as [| ? ? Hd Hrest]; subst.
    assert (Hset : Py.dict_set (number d) d tiles = tiles ++ [(number d, d)]).
    { assert (Hdfresh : number d ∉ map fst tiles)
        by (apply Hfresh; left).
      clear - Hdfresh. induction tiles as [| [k v] tiles IHt]; [reflexivity |].
      cbn [Py.dict_set]. destruct (decide (number d = k)) as [Heq | Hne].
      - exfalso. apply Hdfresh. cbn. rewrite Heq. left.
      - cbn. f_equal. apply IHt. intros Hin. apply Hdfresh. cbn. right.
        exact Hin. }
    fold (tiles_of rest (Py.dict_set (number d) d tiles)).
    rewrite Hset, IH.
    + rewrite <- app_assoc. reflexivity.
    + exact Hrest.
    + intros d' Hd'. rewrite map_app. cbn. intros Hin.
      apply elem_of_app in Hin. destruct Hin as [Hin | Hin].
      * apply (Hfresh d'); [right; exact Hd' | exact Hin].
      * apply list_elem_of_singleton in Hin. apply Hd.
        rewrite <- Hin. apply list_elem_of_fmap. exists d'. split;
          [reflexivity | exact Hd'].
Qed.

Lemma tiles_of_nodup (inputs : list InputData) :
  forall tiles, NoDup (map fst tiles) -> NoDup (map fst (tiles_of inputs tiles)).
Proof.
  induction inputs as [| d rest IH]; intros tiles Hnd; [exact Hnd |].
  cbn [tiles_of fold_left]. apply IH. apply dict_set_nodup. exact Hnd.
Qed.

(** X23. The dictionary of tiles that [load_inputs] builds never has two
    tiles under one input number.  When the inputs of the snapshot have
    distinct numbers, it holds exactly one tile for each input, in
    document order. *)
Theorem tiles_by_number (inputs : list InputData) :
  NoDup (map fst (tiles_of inputs [])) /\
  (NoDup (map number inputs) ->
   tiles_of inputs [] = map (fun d => (number d, d)) inputs).
Proof.
  split.
  - apply tiles_of_nodup. constructor.
  - intros Hnd. rewrite tiles_of_app_fresh; [reflexivity | exact Hnd |].
    intros d _ Hin. cbn in Hin. inversion Hin.
Qed.

End DesktopOverlays.

(** ** Starting up *)

Section StartUp.
Import Http Api Desktop DesktopMore.
Variable fromstring : string -> option Xml.Element.
Variable json_dump : list (string * Settings.Json) -> string.
Variable json_load : string -> option Settings.Json.

(** X24. On a first run, with no settings file, the settings that
    [load] leaves are the defaults, and [auto_connect] on them sends
    nothing and changes nothing: the default address 127.0.0.1 is never
    connected to automatically.  The same holds for an empty saved
    address; for any other saved address [auto_connect] is
    [connect_to_vmix] on the texts of the edit fields. *)
Theorem first_run_does_not_auto_connect (fs : gmap string string)
    (c : Controller) (w : World) (ip port : string) :
  fs !! "vmix_settings.json" = None ->
  (exists s,
     fst (SettingsIO.load json_dump json_load Settings.init fs) = inr s /\
     auto_connect fromstring (Settings.ip s) ip port (c, w) = (tt, (c, w))) /\
  auto_connect fromstring (Settings.JStr "") ip port (c, w) = (tt, (c, w)) /\
  (forall address, address <> "" -> address <> "127.0.0.1" ->
   auto_connect fromstring (Settings.JStr address) ip port (c, w) =
   connect_to_vmix fromstring ip port (c, w)).
Proof.
  intros Hnone. split; [| split].
  - exists Settings.init. unfold SettingsIO.load. rewrite Hnone.
    split; reflexivity.
  - reflexivity.
  - intros address Hne Hdef. unfold auto_connect, SettingsIO.wants_auto_connect.
    cbn [Settings.truthy].
    rewrite bool_decide_eq_false_2 by exact Hdef.
    destruct address; [congruence | reflexivity].
Qed.

End StartUp.

(** ** More of the mobile controller *)

Section MobileMore.
Import Http Api Mobile.
Variable fromstring : string -> option Xml.Element.

(** X25. On the mobile controller a click on an input sends
    [PreviewInput] and then reloads with three fetches.  The preview that
    is stored in the end is the one decoded from the last of these
    fetches, not the clicked input, whether the command was accepted or
    not; the status line names the clicked input all the same. *)
Theorem mobile_click_is_overwritten_by_reload (c : Controller) (w : World)
    (api : vMixAPI) (n : option string) :
  vmix_api c = Some api ->
  let command := command_url api "PreviewInput" [("Input", Py.fmt n)] in
  let url := state_url api in
  let s := snd (on_input_clicked fromstring n (c, w)) in
  sent (snd s) = sent w ++ [command; url; url; url] /\
  preview_input (fst s) =
    top_level_text fromstring "preview"
      (xml_data_of (answer (logged url (logged url (logged command w))) url)) /\
  status_text (fst s) = "Preview: V" +:+ Py.fmt n.
Proof.
  intros Hapi command url s. subst s.
  unfold on_input_clicked. step. rewrite Hapi. step. fold command.
  rewrite (mobile_load_inputs_run fromstring _ _ _ api) by exact Hapi.
  fold url. step. cbn [fst snd].
  split; [unfold logged; cbn [sent]; rewrite <- !app_assoc; reflexivity |].
  split; reflexivity.
Qed.

(** X26. On the mobile controller a failed connect does not stop the
    polling.  [connect_to_vmix] on a mixer that does not answer leaves
    [connected] false but keeps the API handle it created, so the next
    [update_states] tick sends its requests again. *)
Theorem mobile_failed_connect_keeps_polling (c : Controller) (w : World)
    (ip port : string) :
  let api := new_vMixAPI ip port in
  let url := state_url api in
  ip <> "" ->
  Py.truthy (xml_data_of (answer w url)) = false ->
  let s1 := snd (connect_to_vmix fromstring ip port (c, w)) in
  let s2 := snd (update_states fromstring s1) in
  connected (fst s1) = false /\
  vmix_api (fst s1) = Some api /\
  sent (snd s1) = sent w ++ [url] /\
  exists more, sent (snd s2) = sent w ++ [url; url; url] ++ more.
Proof.
  intros api url Hip Hfail s1 s2.
  assert (Hs1 : s1 = (set_connected false
                        (set_status_text "Failed to connect"
                           (set_vmix_api (Some api) c)), logged url w)).
  { subst s1. unfold connect_to_vmix.
    replace (Py.truthy_str ip) with true
      by (destruct ip; [congruence | reflexivity]).
    cbn [negb]. step. fold api url. rewrite Hfail. step. reflexivity. }
  subst s2. rewrite Hs1. cbn [fst snd connected vmix_api set_connected
    set_status_text set_vmix_api].
  split; [reflexivity |]. split; [reflexivity |]. split; [reflexivity |].
  match goal with
  | |- context [update_states fromstring (?c1, ?w1)] =>
      destruct (mobile_tick_compares_and_reloads fromstring c1 w1 api eq_refl)
        as [Hsame Hdiff];
      destruct (decide (fst (get_active_input fromstring api w1)
                        = active_input c1
                        /\ fst (get_preview_input fromstring api
                                  (snd (get_active_input fromstring api w1)))
                           = preview_input c1)) as [Heq | Hne]
  end.
  - rewrite (Hsame Heq). rewrite get_active_input_run. cbn [fst snd].
    rewrite get_preview_input_run. cbn [fst snd]. fold url.
    exists []. unfold logged. cbn [sent]. rewrite <- !app_assoc. reflexivity.
  - rewrite Hdiff by (apply not_and_l in Hne; exact Hne).
    rewrite <- bind_unit_ret.
    rewrite (mobile_load_inputs_run fromstring _ _ _ api) by reflexivity.
    rewrite get_active_input_run. cbn [fst snd].
    rewrite get_preview_input_run. cbn [fst snd]. fold url.
    exists [url; url; url]. unfold ret, logged. cbn [fst snd sent].
    rewrite <- !app_assoc. reflexivity.
Qed.

End MobileMore.

Lemma not_connected_sends_nothing_witness :
  Desktop.vmix_api Desktop.init = None /\
  DesktopMore.send_command "Fade" [("Input", "1")]
    (Desktop.init, Sample.steady Sample.body_a)
  = (false, (Desktop.init, Sample.steady Sample.body_a)) /\
  snd (snd (Desktop.quick_play (Desktop.init, Sample.steady Sample.body_a)))
  = Sample.steady Sample.body_a.
Proof.
  split; [reflexivity |].
  destruct (not_connected_sends_nothing Sample.fromstring Desktop.init
              (Sample.steady Sample.body_a) "1" 1 "Fade" [("Input", "1")]
              eq_refl) as [Hall Hsend].
  split; [exact Hsend |].
  exact (proj1 (Forall_lookup_1 _ _ 2 _ Hall eq_refl)).
Defined.

Lemma on_tile_clicked_outcome_witness :
  Desktop.vmix_api Sample.desktop_on_air = Some Sample.api /\
  let s := snd (Desktop.on_tile_clicked "3"
                  (Sample.desktop_on_air, Sample.steady Sample.body_a)) in
  Http.sent (snd s) = ["http://10.0.0.5:8088/api/?Function=PreviewInput&Input=3"] /\
  Desktop.preview_input (fst s) = Some "3".
Proof.
  split; [reflexivity |].
  destruct (on_tile_clicked_outcome Sample.desktop_on_air
              (Sample.steady Sample.body_a) Sample.api "3" eq_refl)
    as (Hsent & Hpreview & _).
  split; [exact Hsent | exact Hpreview].
Defined.

Lemma click_then_quick_play_witness :
  (Desktop.vmix_api Sample.desktop_on_air = Some Sample.api /\ "3" <> "") /\
  let s := snd (Desktop.quick_play
                  (snd (Desktop.on_tile_clicked "3"
                          (Sample.desktop_on_air,
                           Sample.steady Sample.body_a)))) in
  Desktop.preview_input (fst s) = Some "3" /\
  Desktop.active_input (fst s) = Some "3" /\
  Http.sent (snd s) =
  ["http://10.0.0.5:8088/api/?Function=PreviewInput&Input=3";
   "http://10.0.0.5:8088/api/?Function=Fade&Input=3"].
Proof.
  assert (Hn : "3" <> "") by discriminate.
  split; [split; [reflexivity | exact Hn] |].
  exact (click_then_quick_play Sample.desktop_on_air
           (Sample.steady Sample.body_a) Sample.api "3" eq_refl Hn
           eq_refl eq_refl).
Defined.

Lemma last_fetch_wins_witness :
  Desktop.vmix_api Sample.desktop_on_air = Some Sample.api /\
  let c := fst (snd (Desktop.update_states Sample.fromstring
                       (Sample.desktop_on_air, Sample.steady Sample.body_b))) in
  Desktop.active_input c = Some "7" /\ Desktop.preview_input c = Some "7".
Proof.
  split; [reflexivity |].
  exact (last_fetch_wins Sample.fromstring Sample.desktop_on_air
           (Sample.steady Sample.body_b) Sample.api eq_refl).
Defined.

Lemma steady_mixer_next_tick_is_silent_witness :
  Desktop.vmix_api Sample.desktop_on_air = Some Sample.api /\
  let s1 := snd (Desktop.update_states Sample.fromstring
                   (Sample.desktop_on_air, Sample.steady Sample.body_b)) in
  fst (snd (Desktop.update_states Sample.fromstring s1)) = fst s1 /\
  length (Desktop.ui (fst s1)) = 2.
Proof.
  split; [reflexivity |].
  split; [| reflexivity].
  exact (steady_mixer_next_tick_is_silent Sample.fromstring
           Sample.desktop_on_air (Sample.steady Sample.body_b) Sample.api
           eq_refl eq_refl eq_refl).
Defined.

Lemma overlay_selected_flips_one_flag_witness :
  (Desktop.vmix_api Sample.desktop_on_air = Some Sample.api /\
   Py.truthy (Desktop.preview_input Sample.desktop_on_air) = true) /\
  let s1 := snd (Desktop.overlay_selected 1
                   (Sample.desktop_on_air, Sample.steady Sample.body_a)) in
  Http.sent (snd s1) = ["http://10.0.0.5:8088/api/?Function=OverlayInput1&Input=2"] /\
  Desktop.active_overlays (fst s1) !! 1 = Some true /\
  Desktop.active_overlays (fst s1) !! 2 = Some false.
Proof.
  split; [split; reflexivity |].
  destruct (overlay_selected_flips_one_flag Sample.desktop_on_air
              (Sample.steady Sample.body_a) Sample.api 1 eq_refl eq_refl)
    as (Hsent & Hflip & _).
  destruct (Hflip false eq_refl eq_refl) as [Hon Hother].
  split; [exact Hsent |]. split; [exact Hon |].
  rewrite (Hother 2) by discriminate. reflexivity.
Defined.

Lemma fade_to_black_twice_witness :
  Desktop.vmix_api Sample.desktop_on_air = Some Sample.api /\
  let s := snd (Desktop.fade_to_black
                  (snd (Desktop.fade_to_black
                          (Sample.desktop_on_air,
                           Sample.steady Sample.body_a)))) in
  Desktop.ftb_active (fst s) = false /\
  Desktop.ftb_timer (fst s) = false /\
  Http.sent (snd s) = [Sample.ftb_url; Sample.ftb_url].
Proof.
  split; [reflexivity |].
  exact (fade_to_black_twice Sample.desktop_on_air
           (Sample.steady Sample.body_a) Sample.api eq_refl eq_refl eq_refl).
Defined.

Lemma empty_production_is_reported_as_failure_witness :
  (Http.answer (Sample.steady Cases.body_empty) (Api.state_url Sample.api)
   = Http.Response 200 Cases.body_empty /\
   Cases.fromstring Cases.body_empty = Some Cases.doc_empty /\
   Xml.findall ["inputs"; "input"] Cases.doc_empty = []) /\
  let s := snd (Desktop.load_inputs Cases.fromstring
                  (Sample.desktop_on_air, Sample.steady Cases.body_empty)) in
  Desktop.active_input (fst s) = Some "1" /\
  Desktop.ui (fst s) =
  [Desktop.ClearTiles; Desktop.ShowMessage "❌ Failed to get inputs list"] /\
  length (Http.sent (snd s)) = 1.
Proof.
  split; [repeat split; reflexivity |].
  rewrite (empty_production_is_reported_as_failure Cases.fromstring
             Sample.desktop_on_air (Sample.steady Cases.body_empty)
             Sample.api Cases.body_empty Cases.doc_empty
             eq_refl eq_refl eq_refl eq_refl eq_refl).
  repeat split; reflexivity.
Defined.

Lemma two_inputs_distinct : NoDup (map Desktop.number Cases.two_inputs).
Proof. apply (bool_decide_unpack _). vm_compute. exact I. Qed.

Lemma tiles_by_number_witness :
  NoDup (map Desktop.number Cases.two_inputs) /\
  map fst (Desktop.tiles_of Cases.two_inputs []) = [Some "1"; Some "2"].
Proof.
  split; [exact two_inputs_distinct |].
  rewrite (proj2 (tiles_by_number Cases.two_inputs) two_inputs_distinct).
  reflexivity.
Defined.

Lemma first_run_does_not_auto_connect_witness :
  (∅ : gmap string string) !! "vmix_settings.json" = None /\
  DesktopMore.auto_connect Sample.fromstring (Settings.JStr "10.0.0.5")
    "10.0.0.5" "8088" (Desktop.init, Sample.offline) =
  Desktop.connect_to_vmix Sample.fromstring "10.0.0.5" "8088"
    (Desktop.init, Sample.offline).
Proof.
  split; [reflexivity |].
  destruct (first_run_does_not_auto_connect Sample.fromstring
              Sample.json_dump Cases.json_load ∅ Desktop.init Sample.offline
              "10.0.0.5" "8088" (lookup_empty _)) as (_ & _ & Hother).
  apply Hother; discriminate.
Defined.

Lemma mobile_click_is_overwritten_by_reload_witness :
  Mobile.vmix_api Sample.mobile_on_air = Some Sample.mobile_api /\
  let s := snd (Mobile.on_input_clicked Sample.fromstring (Some "1")
                  (Sample.mobile_on_air, Sample.steady Sample.body_a)) in
  Mobile.preview_input (fst s) = Some "2" /\
  Mobile.status_text (fst s) = "Preview: V1".
Proof.
  split; [reflexivity |].
  destruct (mobile_click_is_overwritten_by_reload Sample.fromstring
              Sample.mobile_on_air (Sample.steady Sample.body_a)
              Sample.mobile_api (Some "1") eq_refl)
    as (_ & Hpreview & Hstatus).
  split; [rewrite Hpreview; reflexivity | exact Hstatus].
Defined.

Lemma mobile_failed_connect_keeps_polling_witness :
  ("10.0.0.5" <> "" /\
   Py.truthy (Api.xml_data_of
                (Http.answer Sample.offline
                   (Api.state_url Sample.mobile_api))) = false) /\
  let s1 := snd (Mobile.connect_to_vmix Sample.fromstring "10.0.0.5" "8088"
                   (Mobile.init, Sample.offline)) in
  Mobile.connected (fst s1) = false /\
  Mobile.vmix_api (fst s1) = Some Sample.mobile_api /\
  length (Http.sent (snd (snd (Mobile.update_states Sample.fromstring s1)))) = 3.
Proof.
  assert (Hip : "10.0.0.5" <> "") by discriminate.
  split; [split; [exact Hip | reflexivity] |].
  destruct (mobile_failed_connect_keeps_polling Sample.fromstring Mobile.init
              Sample.offline "10.0.0.5" "8088" Hip eq_refl)
    as (Hconn & Hapi & _ & _).
  split; [exact Hconn |]. split; [exact Hapi | reflexivity].
Defined.

(** ** Connecting and then polling, desktop *)

Section ConnectThenPoll.
Import Http Api Desktop.
Variable fromstring : string -> option Xml.Element.

(** X27. Against a mixer that answers every request for its state with
    the same snapshot, the first poll tick after a successful connect
    that found inputs is silent: it leaves the controller, the trace of
    interface calls included, as the connect left it. *)
Theorem tick_after_connect_is_silent (c : Controller) (w : World)
    (ip port : string) (r : Result) :
  let api := new_vMixAPI ip port in
  ip <> "" ->
  (forall history, respond w history (state_url api) = r) ->
  Py.truthy (xml_data_of r) = true ->
  decode_inputs fromstring (xml_data_of r) <> [] ->
  let s := snd (connect_to_vmix fromstring ip port (c, w)) in
  vmix_api (fst s) = Some api /\
  active_input (fst s) = top_level_text fromstring "active" (xml_data_of r) /\
  preview_input (fst s) = top_level_text fromstring "preview" (xml_data_of r) /\
  fst (snd (update_states fromstring s)) = fst s.
Proof.
  intros api Hip Hsteady Hx Hinputs s.
  assert (Hanswer : forall w', respond w' = respond w ->
                    answer w' (state_url api) = r)
    by (intros w' Hw'; unfold answer; rewrite Hw'; apply Hsteady).
  assert (Hs : s = snd (connect_to_vmix fromstring ip port (c, w)))
    by reflexivity.
  rewrite connect_success_run in Hs
    by (try exact Hip; fold api; rewrite (Hanswer w eq_refl); exact Hx).
  cbn [snd] in Hs. fold api in Hs.
  rewrite (load_inputs_run fromstring _ _ api) in Hs by reflexivity.
  rewrite !Hanswer in Hs by reflexivity.
  destruct (decode_inputs fromstring (xml_data_of r)) as [| d rest] eqn:E;
    [congruence |].
  cbn [fst snd] in Hs. rewrite Hs. cbn [fst snd].
  split; [reflexivity |]. split; [reflexivity |]. split; [reflexivity |].
  rewrite (update_states_run fromstring _ _ api) by reflexivity.
  rewrite !Hanswer by reflexivity.
  cbn [fst snd active_input preview_input set_ui set_input_tiles
    set_preview_input set_active_input].
  rewrite !bool_decide_eq_false_2 by (intros H; apply H; reflexivity).
  reflexivity.
Qed.

(** X28. A failed connect stops the polling of the desktop controller.
    [connect_to_vmix] on a mixer that does not answer resets the API
    handle, so the poll ticks that follow send nothing and change
    nothing until a connect succeeds. *)
Theorem failed_connect_stops_polling (c : Controller) (w : World)
    (ip port : string) :
  let url := state_url (new_vMixAPI ip port) in
  ip <> "" ->
  Py.truthy (xml_data_of (answer w url)) = false ->
  let s1 := snd (connect_to_vmix fromstring ip port (c, w)) in
  vmix_api (fst s1) = None /\
  sent (snd s1) = sent w ++ [url] /\
  update_states fromstring s1 = (tt, s1).
Proof.
  intros url Hip Hx s1. subst s1.
  rewrite (connect_failure_run fromstring c w ip port Hip Hx). cbn [snd fst].
  split; [reflexivity |]. split; [reflexivity |].
  unfold update_states. step. reflexivity.
Qed.

End ConnectThenPoll.

Lemma tick_after_connect_is_silent_witness :
  ("10.0.0.5" <> "" /\
   Desktop.decode_inputs Sample.fromstring
     (Api.xml_data_of (Http.Response 200 Sample.body_a)) <> []) /\
  let s := snd (Desktop.connect_to_vmix Sample.fromstring "10.0.0.5" "8088"
                  (Desktop.init, Sample.steady Sample.body_a)) in
  Desktop.active_input (fst s) = Some "1" /\
  Desktop.preview_input (fst s) = Some "2" /\
  fst (snd (Desktop.update_states Sample.fromstring s)) = fst s.
Proof.
  assert (Hip : "10.0.0.5" <> "") by discriminate.
  assert (Hin : Desktop.decode_inputs Sample.fromstring
                  (Api.xml_data_of (Http.Response 200 Sample.body_a)) <> [])
    by (vm_compute; discriminate).
  split; [split; [exact Hip | exact Hin] |].
  destruct (tick_after_connect_is_silent Sample.fromstring Desktop.init
              (Sample.steady Sample.body_a) "10.0.0.5" "8088"
              (Http.Response 200 Sample.body_a) Hip
              (fun _ => eq_refl) eq_refl Hin)
    as (_ & Ha & Hp & Hquiet).
  split; [rewrite Ha; reflexivity |].
  split; [rewrite Hp; reflexivity | exact Hquiet].
Defined.

Lemma failed_connect_stops_polling_witness :
  ("10.0.0.5" <> "" /\
   Py.truthy (Api.xml_data_of
                (Http.answer Sample.offline (Api.state_url Sample.api)))
   = false) /\
  let s1 := snd (Desktop.connect_to_vmix Sample.fromstring "10.0.0.5" "8088"
                   (Sample.desktop_on_air, Sample.offline)) in
  Desktop.vmix_api (fst s1) = None /\
  Desktop.update_states Sample.fromstring s1 = (tt, s1).
Proof.
  assert (Hip : "10.0.0.5" <> "") by discriminate.
  split; [split; [exact Hip | reflexivity] |].
  destruct (failed_connect_stops_polling Sample.fromstring
              Sample.desktop_on_air Sample.offline "10.0.0.5" "8088"
              Hip eq_refl) as (Hnone & _ & Hquiet).
  split; [exact Hnone | exact Hquiet].
Defined.
